(** * Conversation buffer of the Streamlit chat scripts

    A shallow embedding of [app.py] (session-only chatbot) and [app_1.py]
    (chatbot mirrored to a MongoDB collection), and the properties of the
    conversation history they maintain.

    Streamlit re-executes the whole script on every interaction; only
    [st.session_state] survives from one run to the next.  A script is
    therefore modelled as one monadic computation over a [World] holding the
    session state, the collection and the chronological trace of everything
    the run did to the outside (widgets drawn, provider requests, store
    writes). *)

From Stdlib Require Import QArith.
From stdpp Require Import gmap strings list fin_maps sorting.

Local Open Scope string_scope.
Local Open Scope list_scope.
Local Open Scope nat_scope.

(** ** Text *)

(** A Python [str] is a sequence of Unicode code points; [len] counts them. *)
Definition str := list N.

(** A literal of the source, character by character. *)
Definition lit (s : string) : str :=
  map Ascii.N_of_ascii (String.list_ascii_of_string s).

(** [str.isspace] for one character: the code points Python treats as
    whitespace. *)
Definition isspace (c : N) : bool :=
  ((9 <=? c) && (c <=? 13) || (28 <=? c) && (c <=? 32)
   || (c =? 133) || (c =? 160) || (c =? 5760)
   || (8192 <=? c) && (c <=? 8202)
   || (c =? 8232) || (c =? 8233) || (c =? 8239) || (c =? 8287)
   || (c =? 12288))%N.

Fixpoint lstrip (s : str) : str :=
  match s with
  | c :: s' => if isspace c then lstrip s' else s
  | [] => []
  end.

Definition rstrip (s : str) : str := rev (lstrip (rev s)).

(** [s.strip()] *)
Definition strip (s : str) : str := rstrip (lstrip s).

(** Truth value of a [str]: the empty string is falsy. *)
Definition str_truthy (s : str) : bool :=
  match s with [] => false | _ :: _ => true end.

(** Truth value of a value that is [None] or a [str]. *)
Definition truthy (o : option str) : bool :=
  match o with Some s => str_truthy s | None => false end.

(** ** Data *)

(** A chat message: the dict literal [{"role": ..., "content": ...}]. *)
Record Message := { role : string; content : str }.

(** A document of the [conversations] collection, as [save_message] writes
    it.  [created_at] is the instant in the store's resolution. *)
Record Document := {
  doc_session_id : str;
  doc_role : string;
  doc_content : str;
  doc_token_usage : option Z;
  doc_created_at : Z
}.

(** The arguments of [openai.ChatCompletion.create]. *)
Record Request := {
  model : string;
  req_messages : list Message;
  temperature : Q;
  max_tokens : Z;
  request_timeout : Z
}.

(** What the scripts read of a response:
    [response["choices"][0]["message"]["content"]] and
    [response["usage"]["total_tokens"]]. *)
Record Response := { resp_content : str; total_tokens : Z }.

(** Exceptions the scripts name in an [except] clause, and the rest. *)
Inductive exn :=
| RateLimitError      (* openai.error.RateLimitError *)
| Timeout             (* openai.error.Timeout *)
| ConnectionFailure   (* pymongo.errors.ConnectionFailure *)
| AttributeError      (* a session-state key read before it is set *)
| KeyError            (* st.secrets[...] on an absent key *)
| OtherException.     (* any other subclass of Exception *)

(** The keys of [st.session_state] the two scripts use; [None] is an absent
    key. *)
Record SessionState := {
  messages : option (list Message);
  conversation_start_time : option Z;
  session_id : option str
}.

Inductive LogRecord :=
| LogInfo (msg : string)
| LogInfoUsage (tokens : Z)   (* the f-string with duration and token count *)
| LogWarning (msg : string)
| LogError (msg : string).

(** Everything a run does that is visible outside it, in program order. *)
Inductive Event :=
| PageConfig                                  (* st.set_page_config *)
| StTitle | StCaption | StDivider | StWarning (* static page furniture *)
| StError (text : string)                     (* st.error *)
| ChatMessage (who : string) (body : str)     (* st.chat_message(..).markdown(..) *)
| Spinner                                     (* with st.spinner(..) *)
| Log (r : LogRecord)                         (* logger.info/warning/error *)
| ChatCompletionCreate (req : Request)        (* the provider request *)
| MongoConnect (uri : str)                    (* MongoClient(..), create_index *)
| Find (sid : str)                            (* collection.find(..).sort(..) *)
| InsertOne (d : Document).                   (* collection.insert_one *)

(** ** Constants shared by both scripts *)

Definition MAX_MESSAGES : nat := 20.
Definition REQUEST_TIMEOUT : Z := 30.
Definition MODEL_NAME : string := "gpt-3.5-turbo".

(** ** List slicing *)

(** [l[-n:]] for a positive [n]: the start index [len(l) - n] is clamped at
    0, which the truncated subtraction of [nat] does. *)
Definition slice_last {A} (n : nat) (l : list A) : list A :=
  drop (length l - n) l.

(** The body of [trim_history] on the list held under ["messages"]. *)
Definition trim (l : list Message) : list Message :=
  if MAX_MESSAGES <? length l then slice_last MAX_MESSAGES l else l.

(** ** The world a run acts on *)

(** What a run receives from outside: the configured secrets, the text
    submitted in the chat box (if any), and the behaviour of the
    collaborators during this run. *)
Record Env := {
  secrets : gmap string str;                         (* st.secrets *)
  chat_input : option str;                           (* st.chat_input(..) *)
  provider : Request -> exn + Response;              (* the completion endpoint *)
  clock : nat -> Z;                                  (* k-th reading of utcnow *)
  uuid4 : str;                                       (* str(uuid.uuid4()) *)
  mongo_startup : option exn;                        (* what connecting raises *)
  find_sort : list Document -> str -> list Document  (* find(..).sort(..) *)
}.

Record World := {
  session_state : SessionState;       (* st.session_state *)
  api_key : option str;               (* openai.api_key *)
  collection : list Document;         (* conversations_collection, in insertion order *)
  trace : list Event;                 (* oldest first *)
  clock_reads : nat
}.

(** How a piece of script ends: it falls through with a value, [st.stop()]
    ends the run, or an exception propagates. *)
Inductive Outcome (A : Type) :=
| Returned (a : A)
| Stopped
| Raised (e : exn).
Arguments Returned {A} a.
Arguments Stopped {A}.
Arguments Raised {A} e.

Definition M (A : Type) : Type := Env -> World -> Outcome A * World.

Definition ret {A} (a : A) : M A := fun _ w => (Returned a, w).

Definition bind {A B} (m : M A) (k : A -> M B) : M B :=
  fun env w =>
    match m env w with
    | (Returned a, w') => k a env w'
    | (Stopped, w') => (Stopped, w')
    | (Raised e, w') => (Raised e, w')
    end.

Declare Scope script_scope.
Delimit Scope script_scope with script.
Notation "'let!' x ':=' m 'in' k" := (bind m (fun x => k))
  (at level 10, x name, m at level 100, k at level 200) : script_scope.
Notation "'let!' ' p ':=' m 'in' k" := (bind m (fun x => let 'p := x in k))
  (at level 10, p pattern, m at level 100, k at level 200) : script_scope.
Notation "m >>> k" := (bind m (fun _ => k))
  (at level 90, right associativity) : script_scope.
Local Open Scope script_scope.

Definition st_stop {A} : M A := fun _ w => (Stopped, w).
Definition raise {A} (e : exn) : M A := fun _ w => (Raised e, w).

(** [try: body except ...: handler]: [handler e] is the clause that catches
    [e], if one does.  [st.stop()] is not an [Exception] and passes through. *)
Definition try_except {A} (body : M A) (handler : exn -> option (M A)) : M A :=
  fun env w =>
    match body env w with
    | (Raised e, w') =>
        match handler e with
        | Some h => h env w'
        | None => (Raised e, w')
        end
    | r => r
    end.

Definition ask : M Env := fun env w => (Returned env, w).
Definition get : M World := fun _ w => (Returned w, w).

(** Record updates, one field at a time. *)
Definition with_session (w : World) (s : SessionState) : World :=
  {| session_state := s; api_key := api_key w; collection := collection w;
     trace := trace w; clock_reads := clock_reads w |}.

Definition with_api_key (w : World) (k : option str) : World :=
  {| session_state := session_state w; api_key := k;
     collection := collection w; trace := trace w;
     clock_reads := clock_reads w |}.

Definition with_collection (w : World) (c : list Document) : World :=
  {| session_state := session_state w; api_key := api_key w; collection := c;
     trace := trace w; clock_reads := clock_reads w |}.

Definition with_trace (w : World) (t : list Event) : World :=
  {| session_state := session_state w; api_key := api_key w;
     collection := collection w; trace := t; clock_reads := clock_reads w |}.

Definition with_clock_reads (w : World) (n : nat) : World :=
  {| session_state := session_state w; api_key := api_key w;
     collection := collection w; trace := trace w; clock_reads := n |}.

Definition with_messages (s : SessionState) (l : option (list Message))
    : SessionState :=
  {| messages := l; conversation_start_time := conversation_start_time s;
     session_id := session_id s |}.

Definition with_start_time (s : SessionState) (t : option Z) : SessionState :=
  {| messages := messages s; conversation_start_time := t;
     session_id := session_id s |}.

Definition with_session_id (s : SessionState) (i : option str) : SessionState :=
  {| messages := messages s;
     conversation_start_time := conversation_start_time s; session_id := i |}.

Definition emit (e : Event) : M unit :=
  fun _ w => (Returned tt, with_trace w (trace w ++ [e])).

Definition set_session_state (s : SessionState) : M unit :=
  fun _ w => (Returned tt, with_session w s).

Definition set_api_key (k : str) : M unit :=
  fun _ w => (Returned tt, with_api_key w (Some k)).

(** [datetime.utcnow()] *)
Definition utcnow : M Z :=
  fun env w =>
    (Returned (clock env (clock_reads w)),
     with_clock_reads w (S (clock_reads w))).

(** [st.secrets[key]] *)
Definition secret (key : string) : M str :=
  let! env := ask in
  match secrets env !! key with
  | Some v => ret v
  | None => raise KeyError
  end.

(** [st.session_state.messages], read *)
Definition get_messages : M (list Message) :=
  let! w := get in
  match messages (session_state w) with
  | Some l => ret l
  | None => raise AttributeError
  end.

(** [st.session_state.messages = l] *)
Definition set_messages (l : list Message) : M unit :=
  let! w := get in
  set_session_state (with_messages (session_state w) (Some l)).

(** [st.session_state.messages.append(m)] *)
Definition append_message (m : Message) : M unit :=
  let! l := get_messages in set_messages (l ++ [m]).

Definition st_error (text : string) : M unit := emit (StError text).

(** [st.chat_message(who).markdown(body)] *)
Definition chat_message (who : string) (body : str) : M unit :=
  emit (ChatMessage who body).

(** [for x in l: body(x)] *)
Fixpoint for_each {A} (l : list A) (body : A -> M unit) : M unit :=
  match l with
  | [] => ret tt
  | x :: l' => body x >>> for_each l' body
  end.

(** [openai.ChatCompletion.create(..)]: the request goes out, and the
    provider answers or the call raises. *)
Definition ChatCompletion_create (req : Request) : M Response :=
  emit (ChatCompletionCreate req) >>>
  let! env := ask in
  match provider env req with
  | inr response => ret response
  | inl e => raise e
  end.

(** The history replay both scripts do before reading the input. *)
Definition display_messages : M unit :=
  let! l := get_messages in
  for_each l (fun msg => chat_message (role msg) (content msg)).

(** ** [app.py]: the session-only script *)

Module App.

Definition SYSTEM_PROMPT : str := lit "
You are a medical assistant chatbot for educational purposes only.

You have access to previous messages in this session.
Use them for consistency.

Strict rules:
- Provide general medical education only.
- Do NOT diagnose medical conditions.
- Do NOT prescribe medications or provide dosages.
- Do NOT replace professional medical consultation.
- Always mention warning signs requiring urgent care.
- Encourage consulting a licensed healthcare professional.
- Be calm, empathetic, and professional.
".

Definition build_messages : M (list Message) :=
  let messages := [{| role := "system"; content := SYSTEM_PROMPT |}] in
  let! history := get_messages in
  ret (messages ++ history).

Definition trim_history : M unit :=
  let! history := get_messages in
  if MAX_MESSAGES <? length history
  then set_messages (slice_last MAX_MESSAGES history)
  else ret tt.

(** The keyword arguments of the call at lines 109-115. *)
Definition completion_request (messages : list Message) : Request :=
  {| model := MODEL_NAME; req_messages := messages;
     temperature := 0.6%Q; max_tokens := 500%Z;
     request_timeout := REQUEST_TIMEOUT |}.

Definition generate_ai_response (messages : list Message) : M (option str) :=
  try_except
    (let! response := ChatCompletion_create (completion_request messages) in
     let token_usage := total_tokens response in
     emit (Log (LogInfoUsage token_usage)) >>>
     ret (Some (strip (resp_content response))))
    (fun e =>
       match e with
       | RateLimitError =>
           Some (emit (Log (LogWarning "Rate limit hit.")) >>>
                 st_error "Too many requests. Please wait a moment and try again." >>>
                 ret None)
       | Timeout =>
           Some (emit (Log (LogError "OpenAI request timed out.")) >>>
                 st_error "Request timed out. Please try again." >>>
                 ret None)
       | _ =>
           Some (emit (Log (LogError "Unexpected OpenAI error.")) >>>
                 st_error "AI service temporarily unavailable." >>>
                 ret None)
       end).

(** Lines 36-40: the API key must be configured. *)
Definition client_initialization : M unit :=
  let! env := ask in
  match secrets env !! "OPENAI_API_KEY" with
  | Some _ => ret tt
  | None => st_error "OpenAI API key not configured." >>> st_stop
  end >>>
  let! key := secret "OPENAI_API_KEY" in
  set_api_key key.

(** Lines 73-77: first run of a session. *)
Definition session_init : M unit :=
  let! w := get in
  match messages (session_state w) with
  | Some _ => ret tt
  | None =>
      set_session_state (with_messages (session_state w) (Some []))
  end >>>
  let! w := get in
  match conversation_start_time (session_state w) with
  | Some _ => ret tt
  | None =>
      let! now := utcnow in
      set_session_state (with_start_time (session_state w) (Some now))
  end.

(** Lines 146-172: one submission. *)
Definition user_turn : M unit :=
  let! env := ask in
  match chat_input env with
  | Some user_input =>
      if str_truthy user_input then
        (if 2000 <? length user_input
         then st_error "Input too long. Please shorten your message." >>> st_stop
         else ret tt) >>>
        append_message {| role := "user"; content := user_input |} >>>
        chat_message "user" user_input >>>
        emit Spinner >>>
        let! request := build_messages in
        let! ai_reply := generate_ai_response request in
        (match ai_reply with
         | Some reply =>
             if str_truthy reply then
               append_message {| role := "assistant"; content := reply |} >>>
               chat_message "assistant" reply
             else ret tt
         | None => ret tt
         end) >>>
        trim_history
      else ret tt
  | None => ret tt
  end.

(** The whole script, top to bottom. *)
Definition script : M unit :=
  emit PageConfig >>>
  client_initialization >>>
  emit StTitle >>> emit StCaption >>>
  session_init >>>
  display_messages >>>
  user_turn >>>
  emit StDivider >>> emit StWarning.

End App.

(** ** [app_1.py]: the script mirrored to the Message Store *)

Module App1.

Definition SYSTEM_PROMPT : str := lit "You are a helpful assistant.".

Definition required_secrets : list string := ["OPENAI_API_KEY"; "MONGODB_URI"].

(** Lines 41-46. *)
Definition secrets_validation : M unit :=
  let! env := ask in
  for_each required_secrets
    (fun secret =>
       match secrets env !! secret with
       | Some _ => ret tt
       | None => st_error ("Missing required secret: " ++ secret) >>> st_stop
       end) >>>
  let! key := secret "OPENAI_API_KEY" in
  set_api_key key.

(** [MongoClient(uri, ..)] up to [create_index]: the client is created and
    the first round trip to the server succeeds or raises. *)
Definition MongoClient (uri : str) : M unit :=
  emit (MongoConnect uri) >>>
  let! env := ask in
  match mongo_startup env with
  | None => ret tt
  | Some e => raise e
  end.

(** Lines 52-72. *)
Definition mongodb_connection : M unit :=
  try_except
    (let! uri := secret "MONGODB_URI" in
     MongoClient uri >>>
     emit (Log (LogInfo "MongoDB connected successfully")))
    (fun e =>
       match e with
       | ConnectionFailure =>
           Some (emit (Log (LogError "MongoDB connection failed")) >>>
                 st_error "Database connection failed." >>>
                 st_stop)
       | _ => None
       end).

(** [st.session_state.session_id], read *)
Definition get_session_id : M str :=
  let! w := get in
  match session_id (session_state w) with
  | Some sid => ret sid
  | None => raise AttributeError
  end.

(** [list(conversations_collection.find({"session_id": sid}).sort("created_at", 1))] *)
Definition find_ordered (sid : str) : M (list Document) :=
  emit (Find sid) >>>
  let! env := ask in
  let! w := get in
  ret (find_sort env (collection w) sid).

(** Lines 91-105. *)
Definition session_management : M unit :=
  let! w := get in
  match session_id (session_state w) with
  | Some _ => ret tt
  | None =>
      let! env := ask in
      set_session_state (with_session_id (session_state w) (Some (uuid4 env)))
  end >>>
  let! w := get in
  match messages (session_state w) with
  | Some _ => ret tt
  | None =>
      let! sid := get_session_id in
      let! stored_messages := find_ordered sid in
      set_session_state
        (with_messages (session_state w)
           (Some (map (fun msg => {| role := doc_role msg;
                                     content := doc_content msg |})
                      stored_messages)))
  end.

Definition build_messages : M (list Message) :=
  let messages := [{| role := "system"; content := SYSTEM_PROMPT |}] in
  let! history := get_messages in
  ret (messages ++ history).

Definition trim_history : M unit :=
  let! history := get_messages in
  if MAX_MESSAGES <? length history
  then set_messages (slice_last MAX_MESSAGES history)
  else ret tt.

(** [conversations_collection.insert_one(d)] *)
Definition insert_one (d : Document) : M unit :=
  emit (InsertOne d) >>>
  fun _ w => (Returned tt, with_collection w (collection w ++ [d])).

Definition save_message (role : string) (content : str)
    (token_usage : option Z) : M unit :=
  let! sid := get_session_id in
  let! now := utcnow in
  insert_one
    {| doc_session_id := sid; doc_role := role; doc_content := content;
       doc_token_usage := token_usage; doc_created_at := now |}.

(** The keyword arguments of the call at lines 144-150. *)
Definition completion_request (messages : list Message) : Request :=
  {| model := MODEL_NAME; req_messages := messages;
     temperature := 0.7%Q; max_tokens := 500%Z;
     request_timeout := REQUEST_TIMEOUT |}.

Definition generate_response (messages : list Message)
    : M (option str * option Z) :=
  try_except
    (let! response := ChatCompletion_create (completion_request messages) in
     let tokens := total_tokens response in
     emit (Log (LogInfoUsage tokens)) >>>
     ret (Some (strip (resp_content response)), Some tokens))
    (fun e =>
       match e with
       | RateLimitError =>
           Some (emit (Log (LogWarning "Rate limit exceeded.")) >>>
                 st_error "Too many requests. Please try again shortly." >>>
                 ret (None, None))
       | Timeout =>
           Some (emit (Log (LogError "Request timed out.")) >>>
                 st_error "Request timed out. Please try again." >>>
                 ret (None, None))
       | _ =>
           Some (emit (Log (LogError "Unexpected OpenAI error.")) >>>
                 st_error "AI service temporarily unavailable." >>>
                 ret (None, None))
       end).

(** Lines 181-208: one submission. *)
Definition user_turn : M unit :=
  let! env := ask in
  match chat_input env with
  | Some user_input =>
      if str_truthy user_input then
        (if 2000 <? length user_input
         then st_error "Input too long. Please shorten your message." >>> st_stop
         else ret tt) >>>
        append_message {| role := "user"; content := user_input |} >>>
        save_message "user" user_input None >>>
        chat_message "user" user_input >>>
        emit Spinner >>>
        let! request := build_messages in
        let! '(reply, tokens) := generate_response request in
        (match reply with
         | Some text =>
             if str_truthy text then
               append_message {| role := "assistant"; content := text |} >>>
               save_message "assistant" text tokens >>>
               chat_message "assistant" text
             else ret tt
         | None => ret tt
         end) >>>
        trim_history
      else ret tt
  | None => ret tt
  end.

(** The session identifier in force once session management has run: the
    one already in the session state, or a fresh one. *)
Definition current_session_id (env : Env) (w : World) : str :=
  default (uuid4 env) (session_id (session_state w)).

(** The buffer once session management has run: the one already in memory,
    or the stored history of the session. *)
Definition buffer_on_entry (env : Env) (w : World) : list Message :=
  match messages (session_state w) with
  | Some l => l
  | None =>
      map (fun msg => {| role := doc_role msg; content := doc_content msg |})
          (find_sort env (collection w) (current_session_id env w))
  end.

(** The whole script, top to bottom. *)
Definition script : M unit :=
  emit PageConfig >>>
  secrets_validation >>>
  mongodb_connection >>>
  emit StTitle >>> emit StCaption >>>
  session_management >>>
  display_messages >>>
  user_turn >>>
  emit StDivider >>> emit StWarning.

End App1.

(** ** The contract of the store's ordered query *)

(** What [find({"session_id": sid}).sort("created_at", 1)] promises: exactly
    the session's documents, in non-decreasing order of [created_at].  The
    order among documents with equal [created_at] is the server's choice. *)
Definition created_le (a b : Document) : Prop :=
  (doc_created_at a <= doc_created_at b)%Z.

Definition find_sort_contract (env : Env) : Prop :=
  forall (coll : list Document) (sid : str),
    find_sort env coll sid ≡ₚ filter (fun d => doc_session_id d = sid) coll
    /\ StronglySorted created_le (find_sort env coll sid).

#[global] Instance created_le_dec : RelDecision created_le.
Proof. intros a b. unfold created_le. apply _. Defined.

(** A store that answers the ordered query with a stable merge sort: one
    admissible behaviour, used to run the scripts on concrete data. *)
Definition stable_find_sort (coll : list Document) (sid : str)
    : list Document :=
  merge_sort created_le (filter (fun d => doc_session_id d = sid) coll).

(** ** Reading a trace *)

Definition st_errors (t : list Event) : list string :=
  omap (fun e => match e with StError text => Some text | _ => None end) t.

Definition provider_requests (t : list Event) : list Request :=
  omap (fun e => match e with ChatCompletionCreate r => Some r | _ => None end) t.

Definition store_inserts (t : list Event) : list Document :=
  omap (fun e => match e with InsertOne d => Some d | _ => None end) t.

Definition chat_messages (t : list Event) : list Message :=
  omap (fun e => match e with
                 | ChatMessage who body => Some {| role := who; content := body |}
                 | _ => None
                 end) t.

(** Store writes and provider requests, in the order they happened. *)
Definition store_and_provider (t : list Event) : list Event :=
  omap (fun e => match e with
                 | InsertOne _ | ChatCompletionCreate _ => Some e
                 | _ => None
                 end) t.

(** How a message is drawn in the transcript. *)
Definition display (m : Message) : Event := ChatMessage (role m) (content m).

(** ** Successive runs *)

(** Streamlit runs the script once per interaction; the world one run leaves
    is the world the next run starts from. *)
Definition reruns (script : M unit) (envs : list Env) (w : World) : World :=
  fold_left (fun w env => snd (script env w)) envs w.

(** No message of the buffer has the role of the system instruction. *)
Definition no_system_message (w : World) : Prop :=
  forall l, messages (session_state w) = Some l ->
            Forall (fun m => role m <> "system") l.

(** No document of the collection has the role of the system instruction. *)
Definition no_system_document (w : World) : Prop :=
  Forall (fun d => doc_role d <> "system") (collection w).



(** The session has identifier [sid], and every document added to [c0]
    carries it. *)
Definition session_keyed (sid : str) (c0 : list Document) (w : World) : Prop :=
  session_id (session_state w) = Some sid
  /\ exists added,
       collection w = c0 ++ added
       /\ Forall (fun d => doc_session_id d = sid) added.

(** The session identifiers the collection was queried for, in order. *)
Definition store_queries (t : list Event) : list str :=
  omap (fun e => match e with Find sid => Some sid | _ => None end) t.

(** ** Sample data *)

Definition sample_secrets : gmap string str :=
  {[ "OPENAI_API_KEY" := lit "sk-test";
     "MONGODB_URI" := lit "mongodb://localhost:27017" ]}.

(** A run with both secrets configured and a reachable store; the k-th clock
    reading is [1000 + k]. *)
Definition sample_env (input : option str) (answer : Request -> exn + Response)
    : Env :=
  {| secrets := sample_secrets; chat_input := input; provider := answer;
     clock := fun k => (1000 + Z.of_nat k)%Z; uuid4 := lit "6f1c";
     mongo_startup := None; find_sort := stable_find_sort |}.

(** The world of a browser session that has not run the script yet. *)
Definition fresh_world : World :=
  {| session_state :=
       {| messages := None; conversation_start_time := None;
          session_id := None |};
     api_key := None; collection := []; trace := []; clock_reads := 0 |}.

(** A stored history of [n] alternating messages of one session, the k-th
    written at instant [k]. *)
Definition sample_history (sid : str) (n : nat) : list Document :=
  map (fun k =>
         {| doc_session_id := sid;
            doc_role := if Nat.even k then "user" else "assistant";
            doc_content := lit "message"; doc_token_usage := None;
            doc_created_at := Z.of_nat k |})
      (seq 0 n).

(** * Properties *)

Arguments lit : simpl never.
Arguments strip : simpl never.
Arguments slice_last : simpl never.
Arguments trim : simpl never.

(** ** Trimming *)

Lemma trim_short (l : list Message) :
  length l <= MAX_MESSAGES -> trim l = l.
Proof.
  intros Hle. unfold trim.
  destruct (Nat.ltb_spec MAX_MESSAGES (length l)) as [Hlt | _]; [lia | done].
Qed.

Lemma trim_long (l : list Message) :
  MAX_MESSAGES < length l -> trim l = drop (length l - MAX_MESSAGES) l.
Proof.
  intros Hlt. unfold trim.
  destruct (Nat.ltb_spec MAX_MESSAGES (length l)) as [_ | Hle]; [done | lia].
Qed.

Lemma trim_length (l : list Message) :
  length (trim l) = Nat.min (length l) MAX_MESSAGES.
Proof.
  destruct (decide (length l <= MAX_MESSAGES)) as [Hle | Hgt].
  - rewrite trim_short by done. lia.
  - rewrite trim_long by lia. rewrite length_drop. lia.
Qed.

Lemma trim_suffix (l : list Message) : trim l `suffix_of` l.
Proof.
  unfold trim, slice_last. case_match; [apply suffix_drop | done].
Qed.

Lemma App_trim_history_run env w l :
  messages (session_state w) = Some l ->
  App.trim_history env w
  = (Returned tt, with_session w (with_messages (session_state w) (Some (trim l)))).
Proof.
  intros Hl. unfold App.trim_history, get_messages, set_messages, bind, get.
  rewrite Hl. unfold ret, trim. case_match; [done |].
  destruct w as [[? ? ?] ? ? ? ?]; simpl in *. by subst.
Qed.

Lemma App1_trim_history_run env w l :
  messages (session_state w) = Some l ->
  App1.trim_history env w
  = (Returned tt, with_session w (with_messages (session_state w) (Some (trim l)))).
Proof. apply App_trim_history_run. Qed.

(** C1. In both scripts, [trim_history] on a buffer [l] leaves the buffer
    [trim l]: at most [MAX_MESSAGES] = 20 entries; when [l] was longer,
    exactly the last 20 entries of [l], in order, the oldest ones gone; and
    [l] itself when it was not longer.  Nothing else of the world changes. *)
Theorem trim_history_bounds_buffer :
  forall (env : Env) (w : World) (s : SessionState) (l : list Message),
    let before := with_session w (with_messages s (Some l)) in
    let after := with_session w (with_messages s (Some (trim l))) in
    App.trim_history env before = (Returned tt, after)
    /\ App1.trim_history env before = (Returned tt, after)
    /\ MAX_MESSAGES = 20
    /\ length (trim l) <= MAX_MESSAGES
    /\ (exists oldest, l = oldest ++ trim l)
    /\ (MAX_MESSAGES < length l ->
        length (trim l) = MAX_MESSAGES
        /\ trim l = drop (length l - MAX_MESSAGES) l)
    /\ (length l <= MAX_MESSAGES -> trim l = l).
Proof.
  intros env w s l before after.
  split; [| split].
  - unfold before. by rewrite (App_trim_history_run _ _ l).
  - unfold before. by rewrite (App1_trim_history_run _ _ l).
  - split; [done |]. split; [rewrite trim_length; lia |].
    split; [apply trim_suffix |]. split.
    + intros Hlt. split; [rewrite trim_length; lia | by apply trim_long].
    + apply trim_short.
Qed.

(** ** Running a script step by step *)

Lemma bind_run {A B} (m : M A) (k : A -> M B) env w o w1 r :
  m env w = (o, w1) ->
  match o with
  | Returned a => k a env w1
  | Stopped => (Stopped, w1)
  | Raised e => (Raised e, w1)
  end = r ->
  bind m k env w = r.
Proof. intros Hm Hk. unfold bind. by rewrite Hm. Qed.

Lemma try_except_run {A} (body : M A) handler env w o w1 r :
  body env w = (o, w1) ->
  match o with
  | Raised e =>
      match handler e with
      | Some h => h env w1
      | None => (Raised e, w1)
      end
  | _ => (o, w1)
  end = r ->
  try_except body handler env w = r.
Proof. intros Hb Hr. unfold try_except. rewrite Hb. by destruct o. Qed.

Lemma for_each_emit_run {A} (l : list A) (f : A -> Event) env w :
  for_each l (fun x => emit (f x)) env w
  = (Returned tt, with_trace w (trace w ++ map f l)).
Proof.
  revert w. induction l as [| x l IH]; intros w; simpl.
  - unfold ret. rewrite app_nil_r. by destruct w.
  - unfold bind, emit at 1. rewrite IH. simpl. by rewrite <- app_assoc.
Qed.

Lemma display_messages_run env w l :
  messages (session_state w) = Some l ->
  display_messages env w
  = (Returned tt, with_trace w (trace w ++ map display l)).
Proof.
  intros Hl. unfold display_messages, get_messages, bind, get. rewrite Hl.
  unfold ret, chat_message. apply (for_each_emit_run l display).
Qed.

Create HintDb script discriminated.
#[global] Hint Unfold
  st_error chat_message secret get_messages set_messages append_message
  ChatCompletion_create
  App.script App.client_initialization App.session_init App.user_turn
  App.build_messages
  App1.script App1.secrets_validation App1.mongodb_connection
  App1.MongoClient App1.get_session_id App1.find_ordered
  App1.session_management App1.build_messages App1.insert_one
  App1.save_message App1.user_turn
  App1.required_secrets : script.

Ltac world_simpl :=
  cbn [messages conversation_start_time session_id session_state api_key
       collection trace clock_reads with_session with_api_key with_collection
       with_trace with_clock_reads with_messages with_start_time
       with_session_id for_each app fst snd] in *.

Ltac use_hyp :=
  match goal with
  | H : ?x = _ |- context [match ?x with _ => _ end] => rewrite H
  | H : ?x = _ |- context [if ?x then _ else _] => rewrite H
  end.

(** Phase lemmas proved further down are plugged in here. *)
Ltac run_phase := fail.

Ltac run_step :=
  world_simpl;
  lazymatch goal with
  | |- bind _ _ _ _ = _ => eapply bind_run
  | |- try_except _ _ _ _ = _ => eapply try_except_run
  | |- ret _ _ _ = _ => reflexivity
  | |- ask _ _ = _ => reflexivity
  | |- get _ _ = _ => reflexivity
  | |- emit _ _ _ = _ => reflexivity
  | |- set_session_state _ _ _ = _ => reflexivity
  | |- set_api_key _ _ _ = _ => reflexivity
  | |- utcnow _ _ = _ => reflexivity
  | |- st_stop _ _ = _ => reflexivity
  | |- raise _ _ _ = _ => reflexivity
  | |- (_, _) = _ => reflexivity
  | |- display_messages _ _ = _ =>
      eapply display_messages_run; world_simpl; first [eassumption | reflexivity]
  | |- App.trim_history _ _ = _ =>
      eapply App_trim_history_run; world_simpl; first [eassumption | reflexivity]
  | |- App1.trim_history _ _ = _ =>
      eapply App1_trim_history_run; world_simpl; first [eassumption | reflexivity]
  | |- _ =>
      first [ run_phase | use_hyp | progress autounfold with script
            | progress cbv beta iota ]
  end.

Ltac run := repeat run_step.

(** For a goal whose right-hand side is written out. *)
Ltac run_to :=
  etrans; [run | world_simpl; rewrite <- ?app_assoc; reflexivity].

(** ** Reading the trace of a run *)

Lemma omap_map_None {A B C} (f : B -> option C) (g : A -> B) (l : list A) :
  (forall x, f (g x) = None) -> omap f (map g l) = [].
Proof.
  intros Hf. induction l as [| x l IH]; simpl; [done |]. by rewrite Hf.
Qed.

Lemma st_errors_app t1 t2 : st_errors (t1 ++ t2) = st_errors t1 ++ st_errors t2.
Proof. apply omap_app. Qed.

Lemma provider_requests_app t1 t2 :
  provider_requests (t1 ++ t2) = provider_requests t1 ++ provider_requests t2.
Proof. apply omap_app. Qed.

Lemma store_inserts_app t1 t2 :
  store_inserts (t1 ++ t2) = store_inserts t1 ++ store_inserts t2.
Proof. apply omap_app. Qed.

Lemma chat_messages_app t1 t2 :
  chat_messages (t1 ++ t2) = chat_messages t1 ++ chat_messages t2.
Proof. apply omap_app. Qed.

Lemma store_and_provider_app t1 t2 :
  store_and_provider (t1 ++ t2) = store_and_provider t1 ++ store_and_provider t2.
Proof. apply omap_app. Qed.

Lemma st_errors_display l : st_errors (map display l) = [].
Proof. by apply omap_map_None. Qed.

Lemma provider_requests_display l : provider_requests (map display l) = [].
Proof. by apply omap_map_None. Qed.

Lemma store_inserts_display l : store_inserts (map display l) = [].
Proof. by apply omap_map_None. Qed.

Lemma store_and_provider_display l : store_and_provider (map display l) = [].
Proof. by apply omap_map_None. Qed.

Lemma chat_messages_display l : chat_messages (map display l) = l.
Proof.
  induction l as [| [r c] l IH]; [done |].
  change (chat_messages (map display ({| role := r; content := c |} :: l)))
    with ({| role := r; content := c |} :: chat_messages (map display l)).
  by rewrite IH.
Qed.

Lemma st_errors_cons e t :
  st_errors (e :: t)
  = match e with StError text => [text] | _ => [] end ++ st_errors t.
Proof. by destruct e. Qed.

Lemma provider_requests_cons e t :
  provider_requests (e :: t)
  = match e with ChatCompletionCreate r => [r] | _ => [] end
    ++ provider_requests t.
Proof. by destruct e. Qed.

Lemma store_inserts_cons e t :
  store_inserts (e :: t)
  = match e with InsertOne d => [d] | _ => [] end ++ store_inserts t.
Proof. by destruct e. Qed.

Lemma chat_messages_cons e t :
  chat_messages (e :: t)
  = match e with
    | ChatMessage who body => [{| role := who; content := body |}]
    | _ => []
    end ++ chat_messages t.
Proof. by destruct e. Qed.

Lemma store_and_provider_cons e t :
  store_and_provider (e :: t)
  = match e with
    | InsertOne _ | ChatCompletionCreate _ => [e]
    | _ => []
    end ++ store_and_provider t.
Proof. by destruct e. Qed.

Ltac trace_simpl :=
  world_simpl;
  repeat progress
    rewrite ?st_errors_app, ?provider_requests_app, ?store_inserts_app,
      ?chat_messages_app, ?store_and_provider_app, ?st_errors_display,
      ?provider_requests_display, ?store_inserts_display,
      ?store_and_provider_display, ?chat_messages_display,
      ?st_errors_cons, ?provider_requests_cons, ?store_inserts_cons,
      ?chat_messages_cons, ?store_and_provider_cons;
  change (st_errors []) with (@nil string);
  change (provider_requests []) with (@nil Request);
  change (store_inserts []) with (@nil Document);
  change (chat_messages []) with (@nil Message);
  change (store_and_provider []) with (@nil Event);
  cbn [app]; rewrite ?app_nil_r, <- ?app_assoc; cbn [app].

(** ** The provider call *)

Lemma App_generate_failure messages env w e :
  provider env (App.completion_request messages) = inl e ->
  App.generate_ai_response messages env w
  = (Returned None,
     with_trace w
       (trace w ++
        [ChatCompletionCreate (App.completion_request messages);
         Log match e with
             | RateLimitError => LogWarning "Rate limit hit."
             | Timeout => LogError "OpenAI request timed out."
             | _ => LogError "Unexpected OpenAI error."
             end;
         StError match e with
                 | RateLimitError =>
                     "Too many requests. Please wait a moment and try again."
                 | Timeout => "Request timed out. Please try again."
                 | _ => "AI service temporarily unavailable."
                 end])).
Proof.
  intros Hp. unfold App.generate_ai_response. destruct e; run_to.
Qed.

Lemma App_generate_success messages env w response :
  provider env (App.completion_request messages) = inr response ->
  App.generate_ai_response messages env w
  = (Returned (Some (strip (resp_content response))),
     with_trace w
       (trace w ++
        [ChatCompletionCreate (App.completion_request messages);
         Log (LogInfoUsage (total_tokens response))])).
Proof.
  intros Hp. unfold App.generate_ai_response. run_to.
Qed.

Lemma App1_generate_failure messages env w e :
  provider env (App1.completion_request messages) = inl e ->
  App1.generate_response messages env w
  = (Returned (None, None),
     with_trace w
       (trace w ++
        [ChatCompletionCreate (App1.completion_request messages);
         Log match e with
             | RateLimitError => LogWarning "Rate limit exceeded."
             | Timeout => LogError "Request timed out."
             | _ => LogError "Unexpected OpenAI error."
             end;
         StError match e with
                 | RateLimitError =>
                     "Too many requests. Please try again shortly."
                 | Timeout => "Request timed out. Please try again."
                 | _ => "AI service temporarily unavailable."
                 end])).
Proof.
  intros Hp. unfold App1.generate_response. destruct e; run_to.
Qed.

Lemma App1_generate_success messages env w response :
  provider env (App1.completion_request messages) = inr response ->
  App1.generate_response messages env w
  = (Returned (Some (strip (resp_content response)),
               Some (total_tokens response)),
     with_trace w
       (trace w ++
        [ChatCompletionCreate (App1.completion_request messages);
         Log (LogInfoUsage (total_tokens response))])).
Proof.
  intros Hp. unfold App1.generate_response. run_to.
Qed.

Ltac run_phase ::=
  lazymatch goal with
  | |- App.generate_ai_response _ _ _ = _ =>
      first [ eapply App_generate_failure; eassumption
            | eapply App_generate_success; eassumption ]
  | |- App1.generate_response _ _ _ = _ =>
      first [ eapply App1_generate_failure; eassumption
            | eapply App1_generate_success; eassumption ]
  end.

(** ** Stripping *)

Lemma lstrip_blank (s : str) : forallb isspace s = true -> lstrip s = [].
Proof.
  induction s as [| c s IH]; simpl; [done |].
  intros [Hc Hs]%andb_prop. rewrite Hc. by apply IH.
Qed.

Lemma strip_blank (s : str) : forallb isspace s = true -> strip s = [].
Proof. intros Hs. unfold strip. by rewrite lstrip_blank. Qed.

(** ** Turns of [app.py] *)

Ltac trace_eq := world_simpl; rewrite <- ?app_assoc; reflexivity.

Ltac split_session w :=
  let l := fresh "l" in
  let t0 := fresh "t0" in
  let Hm := fresh "Hm" in
  let Ht := fresh "Ht" in
  destruct (messages (session_state w)) as [l |] eqn:Hm;
  destruct (conversation_start_time (session_state w)) as [t0 |] eqn:Ht.

Lemma App_turn_failure env w key text e :
  secrets env !! "OPENAI_API_KEY" = Some key ->
  chat_input env = Some text ->
  text <> [] ->
  length text <= 2000 ->
  let buffer := default [] (messages (session_state w)) in
  let user_message := {| role := "user"; content := text |} in
  let request :=
    App.completion_request
      ({| role := "system"; content := App.SYSTEM_PROMPT |}
       :: buffer ++ [user_message]) in
  provider env request = inl e ->
  exists w',
    App.script env w = (Returned tt, w')
    /\ messages (session_state w') = Some (trim (buffer ++ [user_message]))
    /\ collection w' = collection w
    /\ trace w'
       = trace w ++ [PageConfig; StTitle; StCaption] ++ map display buffer ++
         [ChatMessage "user" text; Spinner; ChatCompletionCreate request;
          Log match e with
              | RateLimitError => LogWarning "Rate limit hit."
              | Timeout => LogError "OpenAI request timed out."
              | _ => LogError "Unexpected OpenAI error."
              end;
          StError match e with
                  | RateLimitError =>
                      "Too many requests. Please wait a moment and try again."
                  | Timeout => "Request timed out. Please try again."
                  | _ => "AI service temporarily unavailable."
                  end;
          StDivider; StWarning].
Proof.
  intros Hkey Hin Hne Hlen buffer user_message request Hp.
  assert (Htruthy : str_truthy text = true) by (by destruct text).
  assert (Hlong : (2000 <? length text) = false) by (by apply Nat.ltb_ge).
  subst buffer user_message request.
  split_session w; simpl in Hp;
    (eexists; split; [run |]); (split; [done |]); (split; [done |]); trace_eq.
Qed.

Lemma App_turn_reply env w key text response :
  secrets env !! "OPENAI_API_KEY" = Some key ->
  chat_input env = Some text ->
  text <> [] ->
  length text <= 2000 ->
  let buffer := default [] (messages (session_state w)) in
  let user_message := {| role := "user"; content := text |} in
  let request :=
    App.completion_request
      ({| role := "system"; content := App.SYSTEM_PROMPT |}
       :: buffer ++ [user_message]) in
  let reply := strip (resp_content response) in
  let shown :=
    if str_truthy reply then [{| role := "assistant"; content := reply |}]
    else [] in
  provider env request = inr response ->
  exists w',
    App.script env w = (Returned tt, w')
    /\ messages (session_state w')
       = Some (trim (buffer ++ [user_message] ++ shown))
    /\ collection w' = collection w
    /\ trace w'
       = trace w ++ [PageConfig; StTitle; StCaption] ++ map display buffer ++
         [ChatMessage "user" text; Spinner; ChatCompletionCreate request;
          Log (LogInfoUsage (total_tokens response))] ++
         map display shown ++ [StDivider; StWarning].
Proof.
  intros Hkey Hin Hne Hlen buffer user_message request reply shown Hp.
  assert (Htruthy : str_truthy text = true) by (by destruct text).
  assert (Hlong : (2000 <? length text) = false) by (by apply Nat.ltb_ge).
  subst buffer user_message request shown reply.
  destruct (str_truthy (strip (resp_content response))) eqn:Hreply;
    split_session w; simpl in Hp;
    (eexists; split; [run |]); world_simpl;
    rewrite <- ?app_assoc, ?app_nil_r; (split; [done |]); (split; [done |]);
    trace_eq.
Qed.

Lemma App_turn_too_long env w key text :
  secrets env !! "OPENAI_API_KEY" = Some key ->
  chat_input env = Some text ->
  2000 < length text ->
  let buffer := default [] (messages (session_state w)) in
  exists w',
    App.script env w = (Stopped, w')
    /\ messages (session_state w') = Some buffer
    /\ collection w' = collection w
    /\ trace w'
       = trace w ++ [PageConfig; StTitle; StCaption] ++ map display buffer ++
         [StError "Input too long. Please shorten your message."].
Proof.
  intros Hkey Hin Hlen buffer.
  assert (Htruthy : str_truthy text = true) by (destruct text; [simpl in Hlen; lia | done]).
  assert (Hlong : (2000 <? length text) = true) by (by apply Nat.ltb_lt).
  subst buffer.
  split_session w;
    (eexists; split; [run |]); (split; [done |]); (split; [done |]); trace_eq.
Qed.

(** ** Turns of [app_1.py] *)

Ltac split_session1 w :=
  let l := fresh "l" in
  let sid0 := fresh "sid0" in
  let Hm := fresh "Hm" in
  let Hs := fresh "Hs" in
  unfold App1.buffer_on_entry, App1.current_session_id in *;
  destruct (messages (session_state w)) as [l |] eqn:Hm;
  destruct (session_id (session_state w)) as [sid0 |] eqn:Hs;
  cbn [default] in *.

Lemma App1_turn_failure env w key uri text e :
  secrets env !! "OPENAI_API_KEY" = Some key ->
  secrets env !! "MONGODB_URI" = Some uri ->
  mongo_startup env = None ->
  chat_input env = Some text ->
  text <> [] ->
  length text <= 2000 ->
  let sid := App1.current_session_id env w in
  let buffer := App1.buffer_on_entry env w in
  let user_message := {| role := "user"; content := text |} in
  let user_document :=
    {| doc_session_id := sid; doc_role := "user"; doc_content := text;
       doc_token_usage := None; doc_created_at := clock env (clock_reads w) |} in
  let request :=
    App1.completion_request
      ({| role := "system"; content := App1.SYSTEM_PROMPT |}
       :: buffer ++ [user_message]) in
  provider env request = inl e ->
  exists w',
    App1.script env w = (Returned tt, w')
    /\ messages (session_state w') = Some (trim (buffer ++ [user_message]))
    /\ session_id (session_state w') = Some sid
    /\ collection w' = collection w ++ [user_document]
    /\ trace w'
       = trace w ++
         [PageConfig; MongoConnect uri;
          Log (LogInfo "MongoDB connected successfully"); StTitle; StCaption] ++
         match messages (session_state w) with
         | Some _ => []
         | None => [Find sid]
         end ++
         map display buffer ++
         [InsertOne user_document; ChatMessage "user" text; Spinner;
          ChatCompletionCreate request;
          Log match e with
              | RateLimitError => LogWarning "Rate limit exceeded."
              | Timeout => LogError "Request timed out."
              | _ => LogError "Unexpected OpenAI error."
              end;
          StError match e with
                  | RateLimitError =>
                      "Too many requests. Please try again shortly."
                  | Timeout => "Request timed out. Please try again."
                  | _ => "AI service temporarily unavailable."
                  end;
          StDivider; StWarning].
Proof.
  intros Hkey Huri Hmongo Hin Hne Hlen sid buffer user_message user_document
    request Hp.
  assert (Htruthy : str_truthy text = true) by (by destruct text).
  assert (Hlong : (2000 <? length text) = false) by (by apply Nat.ltb_ge).
  subst sid buffer user_message user_document request.
  split_session1 w;
    (eexists; split; [run |]); (split; [done |]); (split; [done |]);
    (split; [done |]); trace_eq.
Qed.

Lemma App1_turn_reply env w key uri text response :
  secrets env !! "OPENAI_API_KEY" = Some key ->
  secrets env !! "MONGODB_URI" = Some uri ->
  mongo_startup env = None ->
  chat_input env = Some text ->
  text <> [] ->
  length text <= 2000 ->
  let sid := App1.current_session_id env w in
  let buffer := App1.buffer_on_entry env w in
  let user_message := {| role := "user"; content := text |} in
  let user_document :=
    {| doc_session_id := sid; doc_role := "user"; doc_content := text;
       doc_token_usage := None; doc_created_at := clock env (clock_reads w) |} in
  let request :=
    App1.completion_request
      ({| role := "system"; content := App1.SYSTEM_PROMPT |}
       :: buffer ++ [user_message]) in
  let reply := strip (resp_content response) in
  let shown :=
    if str_truthy reply then [{| role := "assistant"; content := reply |}]
    else [] in
  let saved :=
    if str_truthy reply
    then [{| doc_session_id := sid; doc_role := "assistant";
             doc_content := reply;
             doc_token_usage := Some (total_tokens response);
             doc_created_at := clock env (S (clock_reads w)) |}]
    else [] in
  provider env request = inr response ->
  exists w',
    App1.script env w = (Returned tt, w')
    /\ messages (session_state w')
       = Some (trim (buffer ++ [user_message] ++ shown))
    /\ session_id (session_state w') = Some sid
    /\ collection w' = collection w ++ [user_document] ++ saved
    /\ trace w'
       = trace w ++
         [PageConfig; MongoConnect uri;
          Log (LogInfo "MongoDB connected successfully"); StTitle; StCaption] ++
         match messages (session_state w) with
         | Some _ => []
         | None => [Find sid]
         end ++
         map display buffer ++
         [InsertOne user_document; ChatMessage "user" text; Spinner;
          ChatCompletionCreate request;
          Log (LogInfoUsage (total_tokens response))] ++
         map InsertOne saved ++ map display shown ++ [StDivider; StWarning].
Proof.
  intros Hkey Huri Hmongo Hin Hne Hlen sid buffer user_message user_document
    request reply shown saved Hp.
  assert (Htruthy : str_truthy text = true) by (by destruct text).
  assert (Hlong : (2000 <? length text) = false) by (by apply Nat.ltb_ge).
  subst sid buffer user_message user_document request shown saved reply.
  destruct (str_truthy (strip (resp_content response))) eqn:Hreply;
    split_session1 w;
    (eexists; split; [run |]); world_simpl;
    rewrite <- ?app_assoc, ?app_nil_r; (split; [done |]); (split; [done |]);
    (split; [done |]); trace_eq.
Qed.

Lemma App1_turn_too_long env w key uri text :
  secrets env !! "OPENAI_API_KEY" = Some key ->
  secrets env !! "MONGODB_URI" = Some uri ->
  mongo_startup env = None ->
  chat_input env = Some text ->
  2000 < length text ->
  let sid := App1.current_session_id env w in
  let buffer := App1.buffer_on_entry env w in
  exists w',
    App1.script env w = (Stopped, w')
    /\ messages (session_state w') = Some buffer
    /\ collection w' = collection w
    /\ trace w'
       = trace w ++
         [PageConfig; MongoConnect uri;
          Log (LogInfo "MongoDB connected successfully"); StTitle; StCaption] ++
         match messages (session_state w) with
         | Some _ => []
         | None => [Find sid]
         end ++
         map display buffer ++
         [StError "Input too long. Please shorten your message."].
Proof.
  intros Hkey Huri Hmongo Hin Hlen sid buffer.
  assert (Htruthy : str_truthy text = true)
    by (destruct text; [simpl in Hlen; lia | done]).
  assert (Hlong : (2000 <? length text) = true) by (by apply Nat.ltb_lt).
  subst sid buffer.
  split_session1 w;
    (eexists; split; [run |]); (split; [done |]); (split; [done |]); trace_eq.
Qed.

Lemma App1_run_idle env w key uri :
  secrets env !! "OPENAI_API_KEY" = Some key ->
  secrets env !! "MONGODB_URI" = Some uri ->
  mongo_startup env = None ->
  chat_input env = None ->
  let sid := App1.current_session_id env w in
  let buffer := App1.buffer_on_entry env w in
  exists w',
    App1.script env w = (Returned tt, w')
    /\ messages (session_state w') = Some buffer
    /\ session_id (session_state w') = Some sid
    /\ collection w' = collection w
    /\ clock_reads w' = clock_reads w
    /\ trace w'
       = trace w ++
         [PageConfig; MongoConnect uri;
          Log (LogInfo "MongoDB connected successfully"); StTitle; StCaption] ++
         match messages (session_state w) with
         | Some _ => []
         | None => [Find sid]
         end ++
         map display buffer ++ [StDivider; StWarning].
Proof.
  intros Hkey Huri Hmongo Hin sid buffer. subst sid buffer.
  split_session1 w;
    (eexists; split; [run |]); (split; [done |]); (split; [done |]);
    (split; [done |]); (split; [done |]); trace_eq.
Qed.

(** ** Provider failures *)

Lemma trim_last (l : list Message) (m : Message) :
  last (trim (l ++ [m])) = Some m.
Proof.
  unfold trim, slice_last. case_match.
  - rewrite length_app. simpl.
    rewrite drop_app_le by (unfold MAX_MESSAGES; lia). apply last_snoc.
  - apply last_snoc.
Qed.

(** C3. A turn whose provider call raises (rate limit, timeout, or anything
    else) runs to the end of the script in both variants: the buffer is the
    trimmed old buffer plus the user's message, which is its last entry; no
    assistant message is appended or drawn; exactly one [st.error] is added,
    with the text of the failure class; exactly one request was sent. *)
Theorem provider_failure_ends_turn :
  forall (env : Env) (w : World) (key text : str) (e : exn),
    secrets env !! "OPENAI_API_KEY" = Some key ->
    chat_input env = Some text ->
    text <> [] ->
    length text <= 2000 ->
    let user_message := {| role := "user"; content := text |} in
    (let buffer := default [] (messages (session_state w)) in
     let request :=
       App.completion_request
         ({| role := "system"; content := App.SYSTEM_PROMPT |}
          :: buffer ++ [user_message]) in
     provider env request = inl e ->
     exists w',
       App.script env w = (Returned tt, w')
       /\ messages (session_state w') = Some (trim (buffer ++ [user_message]))
       /\ last (trim (buffer ++ [user_message])) = Some user_message
       /\ st_errors (trace w')
          = st_errors (trace w) ++
            [match e with
             | RateLimitError =>
                 "Too many requests. Please wait a moment and try again."
             | Timeout => "Request timed out. Please try again."
             | _ => "AI service temporarily unavailable."
             end]
       /\ provider_requests (trace w') = provider_requests (trace w) ++ [request]
       /\ chat_messages (trace w')
          = chat_messages (trace w) ++ buffer ++ [user_message])
    /\
    (forall uri : str,
       secrets env !! "MONGODB_URI" = Some uri ->
       mongo_startup env = None ->
       let buffer := App1.buffer_on_entry env w in
       let request :=
         App1.completion_request
           ({| role := "system"; content := App1.SYSTEM_PROMPT |}
            :: buffer ++ [user_message]) in
       provider env request = inl e ->
       exists w',
         App1.script env w = (Returned tt, w')
         /\ messages (session_state w') = Some (trim (buffer ++ [user_message]))
         /\ last (trim (buffer ++ [user_message])) = Some user_message
         /\ st_errors (trace w')
            = st_errors (trace w) ++
              [match e with
               | RateLimitError => "Too many requests. Please try again shortly."
               | Timeout => "Request timed out. Please try again."
               | _ => "AI service temporarily unavailable."
               end]
         /\ provider_requests (trace w')
            = provider_requests (trace w) ++ [request]
         /\ chat_messages (trace w')
            = chat_messages (trace w) ++ buffer ++ [user_message]).
Proof.
  intros env w key text e Hkey Hin Hne Hlen user_message. split.
  - intros buffer request Hp.
    destruct (App_turn_failure env w key text e Hkey Hin Hne Hlen Hp)
      as (w' & Hrun & Hbuf & _ & Htrace).
    exists w'. split; [done |]. split; [done |].
    split; [apply trim_last |]. rewrite Htrace. by trace_simpl.
  - intros uri Huri Hmongo buffer request Hp.
    destruct (App1_turn_failure env w key uri text e Hkey Huri Hmongo Hin Hne
                Hlen Hp) as (w' & Hrun & Hbuf & _ & _ & Htrace).
    exists w'. split; [done |]. split; [done |].
    split; [apply trim_last |]. rewrite Htrace.
    by destruct (messages (session_state w)); trace_simpl.
Qed.

Lemma provider_failure_ends_turn_witness :
  (exists w',
     App.script (sample_env (Some (lit "hi")) (fun _ => inl RateLimitError))
       fresh_world = (Returned tt, w')
     /\ messages (session_state w')
        = Some [{| role := "user"; content := lit "hi" |}]
     /\ st_errors (trace w')
        = ["Too many requests. Please wait a moment and try again."])
  /\ (exists w',
        App1.script (sample_env (Some (lit "hi")) (fun _ => inl Timeout))
          fresh_world = (Returned tt, w')
        /\ messages (session_state w')
           = Some [{| role := "user"; content := lit "hi" |}]
        /\ st_errors (trace w') = ["Request timed out. Please try again."]).
Proof.
  split.
  - destruct (provider_failure_ends_turn
                (sample_env (Some (lit "hi")) (fun _ => inl RateLimitError))
                fresh_world (lit "sk-test") (lit "hi") RateLimitError)
      as [Happ _]; [reflexivity | reflexivity | discriminate | simpl; lia |].
    destruct Happ as (w' & Hrun & Hbuf & _ & Herr & _); [reflexivity |].
    exists w'. split; [exact Hrun |]. split; [exact Hbuf | exact Herr].
  - destruct (provider_failure_ends_turn
                (sample_env (Some (lit "hi")) (fun _ => inl Timeout))
                fresh_world (lit "sk-test") (lit "hi") Timeout)
      as [_ Happ1]; [reflexivity | reflexivity | discriminate | simpl; lia |].
    destruct (Happ1 (lit "mongodb://localhost:27017"))
      as (w' & Hrun & Hbuf & _ & Herr & _);
      [reflexivity | reflexivity | reflexivity |].
    exists w'. split; [exact Hrun |]. split; [exact Hbuf | exact Herr].
Defined.

(** ** Over-long input *)

(** C4. A submission of more than 2000 characters stops the run at the
    length check, after one [st.error]: the buffer is the one the run
    started its turn with, nothing was appended, drawn for the turn or sent
    to the provider, and in the persistent variant the collection is
    untouched and no insert was issued. *)
Theorem long_input_leaves_buffer_unchanged :
  forall (env : Env) (w : World) (key text : str),
    secrets env !! "OPENAI_API_KEY" = Some key ->
    chat_input env = Some text ->
    2000 < length text ->
    (let buffer := default [] (messages (session_state w)) in
     exists w',
       App.script env w = (Stopped, w')
       /\ messages (session_state w') = Some buffer
       /\ (forall l, messages (session_state w) = Some l ->
           messages (session_state w') = Some l)
       /\ st_errors (trace w')
          = st_errors (trace w) ++
            ["Input too long. Please shorten your message."]
       /\ provider_requests (trace w') = provider_requests (trace w)
       /\ chat_messages (trace w') = chat_messages (trace w) ++ buffer)
    /\
    (forall uri : str,
       secrets env !! "MONGODB_URI" = Some uri ->
       mongo_startup env = None ->
       let buffer := App1.buffer_on_entry env w in
       exists w',
         App1.script env w = (Stopped, w')
         /\ messages (session_state w') = Some buffer
         /\ (forall l, messages (session_state w) = Some l ->
             messages (session_state w') = Some l)
         /\ collection w' = collection w
         /\ store_inserts (trace w') = store_inserts (trace w)
         /\ st_errors (trace w')
            = st_errors (trace w) ++
              ["Input too long. Please shorten your message."]
         /\ provider_requests (trace w') = provider_requests (trace w)
         /\ chat_messages (trace w') = chat_messages (trace w) ++ buffer).
Proof.
  intros env w key text Hkey Hin Hlen. split.
  - intros buffer.
    destruct (App_turn_too_long env w key text Hkey Hin Hlen)
      as (w' & Hrun & Hbuf & _ & Htrace).
    exists w'. split; [done |]. split; [done |]. split.
    { intros l Hl. rewrite Hbuf. by rewrite Hl. }
    rewrite Htrace. by trace_simpl.
  - intros uri Huri Hmongo buffer.
    destruct (App1_turn_too_long env w key uri text Hkey Huri Hmongo Hin Hlen)
      as (w' & Hrun & Hbuf & Hcoll & Htrace).
    exists w'. split; [done |]. split; [done |]. split.
    { intros l Hl. rewrite Hbuf. unfold App1.buffer_on_entry. by rewrite Hl. }
    split; [done |]. rewrite Htrace.
    by destruct (messages (session_state w)); trace_simpl.
Qed.

Lemma long_input_leaves_buffer_unchanged_witness :
  let text := replicate 2001 97%N in
  let w := with_session fresh_world
             (with_messages (session_state fresh_world)
                (Some [{| role := "user"; content := lit "hi" |}])) in
  (exists w',
     App.script (sample_env (Some text) (fun _ => inl OtherException)) w
     = (Stopped, w')
     /\ messages (session_state w')
        = Some [{| role := "user"; content := lit "hi" |}])
  /\ (exists w',
        App1.script (sample_env (Some text) (fun _ => inl OtherException)) w
        = (Stopped, w')
        /\ messages (session_state w')
           = Some [{| role := "user"; content := lit "hi" |}]
        /\ collection w' = []).
Proof.
  set (text := replicate 2001 97%N).
  set (w := with_session fresh_world
              (with_messages (session_state fresh_world)
                 (Some [{| role := "user"; content := lit "hi" |}]))).
  assert (Hlen : 2000 < length text)
    by (unfold text; rewrite length_replicate; lia).
  destruct (long_input_leaves_buffer_unchanged
              (sample_env (Some text) (fun _ => inl OtherException)) w
              (lit "sk-test") text) as [Happ Happ1];
    [reflexivity | reflexivity | exact Hlen |].
  split.
  - destruct Happ as (w' & Hrun & Hbuf & _).
    exists w'. split; [exact Hrun | exact Hbuf].
  - destruct (Happ1 (lit "mongodb://localhost:27017"))
      as (w' & Hrun & Hbuf & _ & Hcoll & _); [reflexivity | reflexivity |].
    exists w'. split; [exact Hrun |]. split; [exact Hbuf | exact Hcoll].
Defined.

(** ** Whitespace-only replies *)

(** C8. When the provider answers with whitespace only, the reply the
    script holds is the empty string, not [None], and it is falsy: the turn
    ends exactly as after a failure on the assistant side.  The buffer is the
    trimmed old buffer plus the user's message, no assistant message is
    drawn, and in the persistent variant only the user's document is
    inserted. *)
Theorem blank_reply_is_dropped :
  forall (env : Env) (w : World) (key text : str) (response : Response),
    secrets env !! "OPENAI_API_KEY" = Some key ->
    chat_input env = Some text ->
    text <> [] ->
    length text <= 2000 ->
    forallb isspace (resp_content response) = true ->
    let user_message := {| role := "user"; content := text |} in
    (let buffer := default [] (messages (session_state w)) in
     let request :=
       {| role := "system"; content := App.SYSTEM_PROMPT |}
       :: buffer ++ [user_message] in
     provider env (App.completion_request request) = inr response ->
     (forall w0, fst (App.generate_ai_response request env w0)
                 = Returned (Some []))
     /\ truthy (Some []) = false
     /\ exists w',
       App.script env w = (Returned tt, w')
       /\ messages (session_state w') = Some (trim (buffer ++ [user_message]))
       /\ chat_messages (trace w')
          = chat_messages (trace w) ++ buffer ++ [user_message])
    /\
    (forall uri : str,
       secrets env !! "MONGODB_URI" = Some uri ->
       mongo_startup env = None ->
       let buffer := App1.buffer_on_entry env w in
       let request :=
         {| role := "system"; content := App1.SYSTEM_PROMPT |}
         :: buffer ++ [user_message] in
       let user_document :=
         {| doc_session_id := App1.current_session_id env w;
            doc_role := "user"; doc_content := text; doc_token_usage := None;
            doc_created_at := clock env (clock_reads w) |} in
       provider env (App1.completion_request request) = inr response ->
       (forall w0, fst (App1.generate_response request env w0)
                   = Returned (Some [], Some (total_tokens response)))
       /\ exists w',
         App1.script env w = (Returned tt, w')
         /\ messages (session_state w') = Some (trim (buffer ++ [user_message]))
         /\ chat_messages (trace w')
            = chat_messages (trace w) ++ buffer ++ [user_message]
         /\ collection w' = collection w ++ [user_document]
         /\ store_inserts (trace w')
            = store_inserts (trace w) ++ [user_document]).
Proof.
  intros env w key text response Hkey Hin Hne Hlen Hblank user_message.
  apply strip_blank in Hblank. split.
  - intros buffer request Hp. split; [| split; [done |]].
    { intros w0. rewrite (App_generate_success _ _ _ _ Hp). simpl.
      by rewrite Hblank. }
    destruct (App_turn_reply env w key text response Hkey Hin Hne Hlen Hp)
      as (w' & Hrun & Hbuf & _ & Htrace).
    rewrite Hblank in Hbuf, Htrace. simpl in Hbuf, Htrace.
    exists w'. split; [done |]. split; [done |].
    rewrite Htrace. by trace_simpl.
  - intros uri Huri Hmongo buffer request user_document Hp. split.
    { intros w0. rewrite (App1_generate_success _ _ _ _ Hp). simpl.
      by rewrite Hblank. }
    destruct (App1_turn_reply env w key uri text response Hkey Huri Hmongo Hin
                Hne Hlen Hp) as (w' & Hrun & Hbuf & _ & Hcoll & Htrace).
    rewrite Hblank in Hbuf, Hcoll, Htrace. simpl in Hbuf, Hcoll, Htrace.
    exists w'. split; [done |]. split; [done |].
    rewrite Htrace. by destruct (messages (session_state w)); trace_simpl.
Qed.

Lemma blank_reply_is_dropped_witness :
  let blank := {| resp_content := lit "  "; total_tokens := 9%Z |} in
  (exists w',
     App.script (sample_env (Some (lit "hi")) (fun _ => inr blank)) fresh_world
     = (Returned tt, w')
     /\ messages (session_state w')
        = Some [{| role := "user"; content := lit "hi" |}])
  /\ (exists w',
        App1.script (sample_env (Some (lit "hi")) (fun _ => inr blank))
          fresh_world = (Returned tt, w')
        /\ messages (session_state w')
           = Some [{| role := "user"; content := lit "hi" |}]
        /\ length (collection w') = 1).
Proof.
  set (blank := {| resp_content := lit "  "; total_tokens := 9%Z |}).
  destruct (blank_reply_is_dropped
              (sample_env (Some (lit "hi")) (fun _ => inr blank)) fresh_world
              (lit "sk-test") (lit "hi") blank) as [Happ Happ1];
    [reflexivity | reflexivity | discriminate | simpl; lia | reflexivity |].
  split.
  - destruct Happ as (_ & _ & w' & Hrun & Hbuf & _); [reflexivity |].
    exists w'. split; [exact Hrun | exact Hbuf].
  - destruct (Happ1 (lit "mongodb://localhost:27017"))
      as (_ & w' & Hrun & Hbuf & _ & Hcoll & _);
      [reflexivity | reflexivity | reflexivity |].
    exists w'. split; [exact Hrun |]. split; [exact Hbuf |].
    rewrite Hcoll. reflexivity.
Defined.

(** ** Start-up failures *)

(** C7. A missing API key (both variants), a missing database URI, or a
    [ConnectionFailure] while connecting (persistent variant) stops the run
    at start-up after one [st.error]: the only change to the world is the
    trace (and, once the secrets are validated, the provider key), so the
    session state and the collection are untouched and no provider request
    or store operation happened. *)
Theorem startup_failure_halts :
  forall (env : Env) (w : World),
    (secrets env !! "OPENAI_API_KEY" = None ->
     App.script env w
     = (Stopped,
        with_trace w
          (trace w ++ [PageConfig; StError "OpenAI API key not configured."])))
    /\ (secrets env !! "OPENAI_API_KEY" = None ->
        App1.script env w
        = (Stopped,
           with_trace w
             (trace w ++
              [PageConfig; StError "Missing required secret: OPENAI_API_KEY"])))
    /\ (forall key,
          secrets env !! "OPENAI_API_KEY" = Some key ->
          secrets env !! "MONGODB_URI" = None ->
          App1.script env w
          = (Stopped,
             with_trace w
               (trace w ++
                [PageConfig; StError "Missing required secret: MONGODB_URI"])))
    /\ (forall key uri,
          secrets env !! "OPENAI_API_KEY" = Some key ->
          secrets env !! "MONGODB_URI" = Some uri ->
          mongo_startup env = Some ConnectionFailure ->
          App1.script env w
          = (Stopped,
             with_api_key
               (with_trace w
                  (trace w ++
                   [PageConfig; MongoConnect uri;
                    Log (LogError "MongoDB connection failed");
                    StError "Database connection failed."]))
               (Some key))).
Proof.
  intros env w. repeat split.
  - intros Hkey. run_to.
  - intros Hkey. run_to.
  - intros key Hkey Huri. run_to.
  - intros key uri Hkey Huri Hmongo. run_to.
Qed.

Lemma startup_failure_halts_witness :
  let no_secrets :=
    {| secrets := ∅; chat_input := Some (lit "hi");
       provider := fun _ => inl OtherException; clock := fun _ => 0%Z;
       uuid4 := lit "6f1c"; mongo_startup := None;
       find_sort := stable_find_sort |} in
  let unreachable :=
    {| secrets := sample_secrets; chat_input := Some (lit "hi");
       provider := fun _ => inl OtherException; clock := fun _ => 0%Z;
       uuid4 := lit "6f1c"; mongo_startup := Some ConnectionFailure;
       find_sort := stable_find_sort |} in
  fst (App.script no_secrets fresh_world) = Stopped
  /\ session_state (snd (App.script no_secrets fresh_world))
     = session_state fresh_world
  /\ fst (App1.script unreachable fresh_world) = Stopped
  /\ session_state (snd (App1.script unreachable fresh_world))
     = session_state fresh_world
  /\ collection (snd (App1.script unreachable fresh_world)) = [].
Proof.
  intros no_secrets unreachable.
  destruct (startup_failure_halts no_secrets fresh_world) as (Happ & _).
  destruct (startup_failure_halts unreachable fresh_world)
    as (_ & _ & _ & Hconn).
  rewrite Happ by reflexivity.
  rewrite (Hconn (lit "sk-test") (lit "mongodb://localhost:27017"))
    by reflexivity.
  repeat split.
Defined.

(** ** The ordered query *)

#[global] Instance created_le_trans : Transitive created_le.
Proof. intros a b c. unfold created_le. lia. Qed.

#[global] Instance created_le_total : Total created_le.
Proof. intros a b. unfold created_le. lia. Qed.

Lemma stable_find_sort_contract env :
  find_sort env = stable_find_sort -> find_sort_contract env.
Proof.
  intros Hfind coll sid. rewrite Hfind. unfold stable_find_sort. split.
  - apply merge_sort_Permutation.
  - apply StronglySorted_merge_sort; apply _.
Qed.

Lemma sorted_after (d : Document) (before after : list Document) :
  StronglySorted created_le (before ++ d :: after) ->
  Forall (created_le d) after.
Proof.
  intros Hsorted. apply StronglySorted_app_1_r in Hsorted.
  by inversion Hsorted.
Qed.

Lemma others_of_permutation (d : Document) (before after old : list Document) :
  before ++ d :: after ≡ₚ old ++ [d] -> before ++ after ≡ₚ old.
Proof.
  intros Hperm. apply (Permutation.Permutation_cons_inv (a := d)).
  rewrite Permutation_middle, Hperm. by rewrite Permutation_app_comm.
Qed.

(** ** Persisting and retrieving a message *)

Lemma save_message_run role content tokens env w sid :
  session_id (session_state w) = Some sid ->
  let d :=
    {| doc_session_id := sid; doc_role := role; doc_content := content;
       doc_token_usage := tokens; doc_created_at := clock env (clock_reads w) |} in
  App1.save_message role content tokens env w
  = (Returned tt,
     with_collection
       (with_trace (with_clock_reads w (S (clock_reads w)))
          (trace w ++ [InsertOne d]))
       (collection w ++ [d])).
Proof. intros Hsid d. subst d. run_to. Qed.

Lemma find_ordered_run sid env w :
  App1.find_ordered sid env w
  = (Returned (find_sort env (collection w) sid),
     with_trace w (trace w ++ [Find sid])).
Proof. run_to. Qed.

(** C6, as stated, fails: the stored timestamp is whatever [utcnow] reads at
    the insert.  On a session whose earlier document carries instant 2000, an
    insert made when the clock reads 1000 is stored with the earlier instant
    and is retrieved first, not last. *)
Lemma insert_can_precede_stored_entries :
  let env := sample_env None (fun _ => inl OtherException) in
  let sid := lit "6f1c" in
  let earlier :=
    {| doc_session_id := sid; doc_role := "user"; doc_content := lit "first";
       doc_token_usage := None; doc_created_at := 2000%Z |} in
  let w :=
    with_collection
      (with_session fresh_world
         (with_session_id (session_state fresh_world) (Some sid)))
      [earlier] in
  find_sort_contract env
  /\ exists w1 w2 d,
       App1.save_message "user" (lit "second") None env w = (Returned tt, w1)
       /\ App1.find_ordered sid env w1 = (Returned [d; earlier], w2)
       /\ doc_role d = "user"
       /\ doc_content d = lit "second"
       /\ (doc_created_at d < doc_created_at earlier)%Z
       /\ last [d; earlier] = Some earlier
       /\ earlier <> d.
Proof.
  intros env sid earlier w. split; [by apply stable_find_sort_contract |].
  eexists _, _, _. split; [by apply save_message_run |].
  split; [rewrite find_ordered_run; reflexivity |].
  split; [done |]. split; [done |]. split; [simpl; lia |].
  split; [done | discriminate].
Qed.

(** C6, amended.  [save_message] appends one document carrying the session,
    the role, the content, the token count and the clock reading taken at the
    insert; the ordered query then returns the session's documents, sorted,
    with that document among them.  When no earlier document of the session
    carries a later instant than the reading, every document retrieved after
    the new one carries the same instant; when all earlier ones are strictly
    earlier, the new document is retrieved last. *)
Theorem persisted_message_round_trip :
  forall (env : Env) (w : World) (sid : str) (role : string) (content : str)
         (tokens : option Z),
    find_sort_contract env ->
    session_id (session_state w) = Some sid ->
    let now := clock env (clock_reads w) in
    let d :=
      {| doc_session_id := sid; doc_role := role; doc_content := content;
         doc_token_usage := tokens; doc_created_at := now |} in
    let earlier := filter (fun p => doc_session_id p = sid) (collection w) in
    exists w1 w2 retrieved,
      App1.save_message role content tokens env w = (Returned tt, w1)
      /\ collection w1 = collection w ++ [d]
      /\ App1.find_ordered sid env w1 = (Returned retrieved, w2)
      /\ retrieved ≡ₚ earlier ++ [d]
      /\ StronglySorted created_le retrieved
      /\ d ∈ retrieved
      /\ (Forall (fun p => (doc_created_at p <= now)%Z) earlier ->
          exists before after,
            retrieved = before ++ d :: after
            /\ Forall (fun p => doc_created_at p = now) after)
      /\ (Forall (fun p => (doc_created_at p < now)%Z) earlier ->
          last retrieved = Some d).
Proof.
  intros env w sid role content tokens Hcontract Hsid now d earlier.
  destruct (Hcontract (collection w ++ [d]) sid) as [Hperm Hsorted].
  rewrite filter_app in Hperm.
  replace (filter (fun p => doc_session_id p = sid) [d]) with [d] in Hperm
    by (rewrite filter_cons_True by done; done).
  fold earlier in Hperm.
  set (retrieved := find_sort env (collection w ++ [d]) sid) in *.
  assert (Hin : d ∈ retrieved)
    by (rewrite Hperm; apply elem_of_app; right; apply list_elem_of_singleton; done).
  exists (with_collection
            (with_trace (with_clock_reads w (S (clock_reads w)))
               (trace w ++ [InsertOne d]))
            (collection w ++ [d])).
  eexists _, retrieved. split; [by apply save_message_run |].
  split; [done |]. split; [by rewrite find_ordered_run |].
  split; [done |]. split; [done |]. split; [done |].
  destruct (list_elem_of_split _ _ Hin) as (before & after & Hsplit).
  clearbody retrieved. subst retrieved.
  pose proof (sorted_after _ _ _ Hsorted) as Hafter.
  pose proof (others_of_permutation _ _ _ _ Hperm) as Hothers.
  assert (Hsub : Forall (fun p => p ∈ earlier) after).
  { apply Forall_forall. intros p Hp. rewrite <- Hothers.
    apply elem_of_app. by right. }
  split.
  - intros Hle. exists before, after. split; [done |].
    rewrite Forall_forall in Hle, Hafter, Hsub |- *. intros p Hp.
    specialize (Hle p (Hsub p Hp)). specialize (Hafter p Hp).
    unfold created_le in Hafter. simpl in *. lia.
  - intros Hlt. destruct after as [| p after].
    + apply last_snoc.
    + exfalso. rewrite Forall_forall in Hlt, Hafter, Hsub.
      specialize (Hlt p (Hsub p ltac:(left))).
      specialize (Hafter p ltac:(left)).
      unfold created_le in Hafter. simpl in *. lia.
Qed.

Lemma persisted_message_round_trip_witness :
  let env := sample_env None (fun _ => inl OtherException) in
  let sid := lit "6f1c" in
  let earlier :=
    {| doc_session_id := sid; doc_role := "user"; doc_content := lit "first";
       doc_token_usage := None; doc_created_at := 500%Z |} in
  let w :=
    with_collection
      (with_session fresh_world
         (with_session_id (session_state fresh_world) (Some sid)))
      [earlier] in
  exists w1 w2 retrieved d,
    App1.save_message "assistant" (lit "second") (Some 7%Z) env w
    = (Returned tt, w1)
    /\ App1.find_ordered sid env w1 = (Returned retrieved, w2)
    /\ last retrieved = Some d
    /\ doc_role d = "assistant" /\ doc_content d = lit "second".
Proof.
  intros env sid earlier w.
  destruct (persisted_message_round_trip env w sid "assistant" (lit "second")
              (Some 7%Z))
    as (w1 & w2 & retrieved & Hsave & _ & Hfind & _ & _ & _ & _ & Hlast).
  { by apply stable_find_sort_contract. }
  { reflexivity. }
  exists w1, w2, retrieved.
  exists {| doc_session_id := sid; doc_role := "assistant";
            doc_content := lit "second"; doc_token_usage := Some 7%Z;
            doc_created_at := clock env (clock_reads w) |}.
  split; [exact Hsave |]. split; [exact Hfind |].
  split; [| split; reflexivity].
  apply Hlast. repeat constructor.
Defined.

(** ** Rehydration *)

Lemma session_management_load env w :
  messages (session_state w) = None ->
  let sid := App1.current_session_id env w in
  App1.session_management env w
  = (Returned tt,
     with_session (with_trace w (trace w ++ [Find sid]))
       (with_messages (with_session_id (session_state w) (Some sid))
          (Some (map (fun d => {| role := doc_role d; content := doc_content d |})
                     (find_sort env (collection w) sid))))).
Proof.
  intros Hm sid. subst sid. unfold App1.current_session_id.
  destruct (session_id (session_state w)) as [sid0 |] eqn:Hs; cbn [default].
  - etrans; [run |].
    unfold set_session_state, with_messages, with_session_id. simpl.
    by rewrite Hs.
  - etrans; [run |]. done.
Qed.

(** C10. Rehydration builds each buffer entry from the [role] and [content]
    of a stored document and from nothing else: documents that agree on these
    two fields give the same buffer whatever their [token_usage] and
    [created_at], although [save_message] writes both fields on every
    insert. *)
Theorem rehydration_projects_role_and_content :
  forall (env : Env) (w : World),
    messages (session_state w) = None ->
    let sid := App1.current_session_id env w in
    let docs := find_sort env (collection w) sid in
    let project :=
      fun d => {| role := doc_role d; content := doc_content d |} in
    (exists w',
       App1.session_management env w = (Returned tt, w')
       /\ messages (session_state w') = Some (map project docs))
    /\ (forall docs',
          Forall2 (fun d d' => doc_role d = doc_role d'
                               /\ doc_content d = doc_content d') docs docs' ->
          map project docs' = map project docs)
    /\ (forall (role : string) (content : str) (tokens : option Z)
               (w0 : World) (sid0 : str),
          session_id (session_state w0) = Some sid0 ->
          exists w1,
            App1.save_message role content tokens env w0 = (Returned tt, w1)
            /\ collection w1
               = collection w0 ++
                 [{| doc_session_id := sid0; doc_role := role;
                     doc_content := content; doc_token_usage := tokens;
                     doc_created_at := clock env (clock_reads w0) |}]).
Proof.
  intros env w Hm sid docs project. split; [| split].
  - eexists. split; [by apply session_management_load |]. done.
  - intros docs' Hagree. induction Hagree as [| d d' l l' [Hr Hc] _ IH]; [done |].
    simpl. rewrite IH. unfold project. by rewrite Hr, Hc.
  - intros role content tokens w0 sid0 Hsid. eexists.
    split; [by apply save_message_run |]. done.
Qed.

Lemma rehydration_projects_role_and_content_witness :
  let env := sample_env None (fun _ => inl OtherException) in
  let sid := lit "6f1c" in
  let stored :=
    {| doc_session_id := sid; doc_role := "assistant";
       doc_content := lit "hello"; doc_token_usage := Some 42%Z;
       doc_created_at := 7%Z |} in
  let w :=
    with_collection
      (with_session fresh_world
         (with_session_id (session_state fresh_world) (Some sid)))
      [stored] in
  exists w',
    App1.session_management env w = (Returned tt, w')
    /\ messages (session_state w')
       = Some [{| role := "assistant"; content := lit "hello" |}].
Proof.
  intros env sid stored w.
  destruct (rehydration_projects_role_and_content env w) as [Hload _];
    [reflexivity |].
  destruct Hload as (w' & Hrun & Hbuf).
  exists w'. split; [exact Hrun | exact Hbuf].
Defined.

(** C5. A run on a session with no buffer in memory loads the session's
    stored documents, all of them and in the order of the sorted query, as
    the buffer, untrimmed.  With 25 stored documents the buffer has 25
    entries; the next run that completes a turn leaves the last 18 of them
    followed by the new user and assistant messages, 20 entries. *)
Theorem rehydration_loads_whole_history :
  forall (env : Env) (w : World) (key uri : str),
    find_sort_contract env ->
    secrets env !! "OPENAI_API_KEY" = Some key ->
    secrets env !! "MONGODB_URI" = Some uri ->
    mongo_startup env = None ->
    chat_input env = None ->
    messages (session_state w) = None ->
    let sid := App1.current_session_id env w in
    let stored := filter (fun d => doc_session_id d = sid) (collection w) in
    exists (w1 : World) (docs : list Document),
      let loaded :=
        map (fun d => {| role := doc_role d; content := doc_content d |}) docs in
      App1.script env w = (Returned tt, w1)
      /\ docs ≡ₚ stored
      /\ StronglySorted created_le docs
      /\ messages (session_state w1) = Some loaded
      /\ length loaded = length stored
      /\ forall (env2 : Env) (key2 uri2 text : str) (response : Response),
           secrets env2 !! "OPENAI_API_KEY" = Some key2 ->
           secrets env2 !! "MONGODB_URI" = Some uri2 ->
           mongo_startup env2 = None ->
           chat_input env2 = Some text ->
           text <> [] ->
           length text <= 2000 ->
           let reply := strip (resp_content response) in
           let turn :=
             [{| role := "user"; content := text |};
              {| role := "assistant"; content := reply |}] in
           reply <> [] ->
           provider env2
             (App1.completion_request
                ({| role := "system"; content := App1.SYSTEM_PROMPT |}
                 :: loaded ++ [{| role := "user"; content := text |}]))
           = inr response ->
           exists w2,
             App1.script env2 w1 = (Returned tt, w2)
             /\ messages (session_state w2) = Some (trim (loaded ++ turn))
             /\ (length stored = 25 ->
                 length loaded = 25
                 /\ trim (loaded ++ turn) = drop 7 loaded ++ turn
                 /\ length (drop 7 loaded ++ turn) = 20).
Proof.
  intros env w key uri Hcontract Hkey Huri Hmongo Hin Hm sid stored.
  destruct (App1_run_idle env w key uri Hkey Huri Hmongo Hin)
    as (w1 & Hrun & Hbuf & _).
  unfold App1.buffer_on_entry in Hbuf. rewrite Hm in Hbuf. fold sid in Hbuf.
  destruct (Hcontract (collection w) sid) as [Hperm Hsorted].
  exists w1, (find_sort env (collection w) sid). cbv zeta.
  split; [done |]. split; [done |]. split; [done |]. split; [done |].
  split; [by rewrite length_map, Hperm |].
  set (loaded := map _ (find_sort env (collection w) sid)) in *.
  intros env2 key2 uri2 text response Hkey2 Huri2 Hmongo2 Hin2 Hne Hlen
    Hreply Hp.
  set (turn := [{| role := "user"; content := text |};
                {| role := "assistant";
                   content := strip (resp_content response) |}]).
  assert (Hentry : App1.buffer_on_entry env2 w1 = loaded)
    by (unfold App1.buffer_on_entry; by rewrite Hbuf).
  destruct (App1_turn_reply env2 w1 key2 uri2 text response Hkey2 Huri2
              Hmongo2 Hin2 Hne Hlen) as (w2 & Hrun2 & Hbuf2 & _).
  { by rewrite Hentry. }
  rewrite Hentry in Hbuf2.
  assert (Htruthy : str_truthy (strip (resp_content response)) = true)
    by (by destruct (strip (resp_content response))).
  rewrite Htruthy in Hbuf2.
  exists w2. split; [done |]. split; [done |].
  intros Hstored.
  assert (Hloaded : length loaded = 25)
    by (unfold loaded; by rewrite length_map, Hperm).
  split; [done |]. split.
  - rewrite trim_long by (rewrite length_app, Hloaded; simpl; unfold MAX_MESSAGES; lia).
    rewrite length_app, Hloaded. simpl.
    rewrite drop_app_le by lia. done.
  - rewrite length_app, length_drop, Hloaded. done.
Qed.

Lemma rehydration_loads_whole_history_witness :
  let sid := lit "6f1c" in
  let w :=
    with_collection
      (with_session fresh_world
         (with_session_id (session_state fresh_world) (Some sid)))
      (sample_history sid 25) in
  let answer := {| resp_content := lit " ok "; total_tokens := 3%Z |} in
  exists w1 w2 loaded kept,
    App1.script (sample_env None (fun _ => inr answer)) w = (Returned tt, w1)
    /\ messages (session_state w1) = Some loaded
    /\ length loaded = 25
    /\ App1.script (sample_env (Some (lit "hi")) (fun _ => inr answer)) w1
       = (Returned tt, w2)
    /\ messages (session_state w2) = Some kept
    /\ length kept = 20.
Proof.
  intros sid w answer.
  destruct (rehydration_loads_whole_history
              (sample_env None (fun _ => inr answer)) w
              (lit "sk-test") (lit "mongodb://localhost:27017"))
    as (w1 & docs & Hrun & _ & _ & Hbuf & Hlen & Hnext);
    [by apply stable_find_sort_contract | reflexivity | reflexivity
    | reflexivity | reflexivity | reflexivity |].
  destruct (Hnext (sample_env (Some (lit "hi")) (fun _ => inr answer))
              (lit "sk-test") (lit "mongodb://localhost:27017") (lit "hi")
              answer)
    as (w2 & Hrun2 & Hbuf2 & Hcase);
    [reflexivity | reflexivity | reflexivity | reflexivity | discriminate
    | simpl; lia | by vm_compute | reflexivity |].
  destruct Hcase as (Hloaded & Htrim & Hkept); [by vm_compute |].
  eexists w1, w2, _, _. split; [exact Hrun |]. split; [exact Hbuf |].
  split; [exact Hloaded |]. split; [exact Hrun2 |].
  split; [rewrite Hbuf2, Htrim; reflexivity | exact Hkept].
Defined.

(** ** Invariants of a whole run *)

Section Invariants.

(** An invariant of the world, what the run may assume of its
    collaborators, and the messages and documents that may be stored
    without breaking the invariant. *)
Variable Inv : World -> Prop.
Variable Good : Env -> Prop.
Variable SOK : SessionState -> Prop.
Variable LOK : list Message -> Prop.
Variable DOK : Document -> Prop.

Hypothesis Inv_trace : forall w t, Inv w -> Inv (with_trace w t).
Hypothesis Inv_api_key : forall w k, Inv w -> Inv (with_api_key w k).
Hypothesis Inv_clock : forall w n, Inv w -> Inv (with_clock_reads w n).
Hypothesis Inv_session : forall w s, Inv w -> SOK s -> Inv (with_session w s).
Hypothesis Inv_insert :
  forall w d, Inv w -> DOK d -> Inv (with_collection w (collection w ++ [d])).
Hypothesis Inv_SOK : forall w, Inv w -> SOK (session_state w).
Hypothesis SOK_LOK : forall s l, SOK s -> messages s = Some l -> LOK l.
Hypothesis SOK_messages :
  forall s l, LOK l -> SOK (with_messages s (Some l)).
Hypothesis SOK_start_time :
  forall s t, SOK s -> SOK (with_start_time s t).
Hypothesis SOK_session_id :
  forall s i, SOK s -> SOK (with_session_id s i).
Hypothesis LOK_nil : LOK [].
Hypothesis LOK_user :
  forall l c, LOK l -> LOK (l ++ [{| role := "user"; content := c |}]).
Hypothesis LOK_assistant :
  forall l c, LOK l -> LOK (l ++ [{| role := "assistant"; content := c |}]).
Hypothesis LOK_drop : forall n l, LOK l -> LOK (drop n l).
Hypothesis LOK_find :
  forall env w sid,
    Good env -> Inv w ->
    LOK (map (fun d => {| role := doc_role d; content := doc_content d |})
             (find_sort env (collection w) sid)).
Hypothesis DOK_user :
  forall sid c t now,
    DOK {| doc_session_id := sid; doc_role := "user"; doc_content := c;
           doc_token_usage := t; doc_created_at := now |}.
Hypothesis DOK_assistant :
  forall sid c t now,
    DOK {| doc_session_id := sid; doc_role := "assistant"; doc_content := c;
           doc_token_usage := t; doc_created_at := now |}.

(** [m] keeps the invariant however it ends, and a value it returns
    satisfies [Q]. *)
Definition keeps {A} (m : M A) (Q : A -> Prop) : Prop :=
  forall env w,
    Good env -> Inv w ->
    Inv (snd (m env w)) /\ forall a, fst (m env w) = Returned a -> Q a.

Lemma keeps_ret {A} (a : A) (Q : A -> Prop) : Q a -> keeps (ret a) Q.
Proof. intros Ha env w _ Hw. split; [done |]. by intros ? [= <-]. Qed.

Lemma keeps_stop {A} (Q : A -> Prop) : keeps st_stop Q.
Proof. intros env w _ Hw. split; [done |]. by intros ? [=]. Qed.

Lemma keeps_raise {A} (e : exn) (Q : A -> Prop) : keeps (raise e) Q.
Proof. intros env w _ Hw. split; [done |]. by intros ? [=]. Qed.

Lemma keeps_bind {A B} (m : M A) (k : A -> M B) Q R :
  keeps m Q -> (forall a, Q a -> keeps (k a) R) -> keeps (bind m k) R.
Proof.
  intros Hm Hk env w Henv Hw. unfold bind.
  destruct (Hm env w Henv Hw) as [Hinv Hval].
  destruct (m env w) as [[a | | e] w1]; simpl in *.
  - by apply Hk; [apply Hval | |].
  - split; [done |]. by intros ? [=].
  - split; [done |]. by intros ? [=].
Qed.

Lemma keeps_try_except {A} (body : M A) handler Q :
  keeps body Q ->
  (forall e h, handler e = Some h -> keeps h Q) ->
  keeps (try_except body handler) Q.
Proof.
  intros Hbody Hhandler env w Henv Hw. unfold try_except.
  destruct (Hbody env w Henv Hw) as [Hinv Hval].
  destruct (body env w) as [[a | | e] w1]; simpl in *; [done | done |].
  destruct (handler e) as [h |] eqn:Hh.
  - by apply (Hhandler e h).
  - split; [done |]. by intros ? [=].
Qed.

Lemma keeps_for_each {A} (l : list A) (body : A -> M unit) :
  (forall x, keeps (body x) (fun _ => True)) ->
  keeps (for_each l body) (fun _ => True).
Proof.
  intros Hbody. induction l as [| x l IH]; simpl.
  - by apply keeps_ret.
  - eapply keeps_bind; [apply Hbody | done].
Qed.

Lemma keeps_ask : keeps ask Good.
Proof. intros env w Henv Hw. split; [done |]. by intros ? [= <-]. Qed.

Lemma keeps_get : keeps get Inv.
Proof. intros env w Henv Hw. split; [done |]. by intros ? [= <-]. Qed.

Lemma keeps_emit e : keeps (emit e) (fun _ => True).
Proof. intros env w _ Hw. split; [by apply Inv_trace | done]. Qed.

Lemma keeps_set_api_key k : keeps (set_api_key k) (fun _ => True).
Proof. intros env w _ Hw. split; [by apply Inv_api_key | done]. Qed.

Lemma keeps_utcnow : keeps utcnow (fun _ => True).
Proof. intros env w _ Hw. split; [by apply Inv_clock | done]. Qed.

Lemma keeps_set_session_state s :
  SOK s -> keeps (set_session_state s) (fun _ => True).
Proof. intros Hs env w _ Hw. split; [by apply Inv_session | done]. Qed.

Lemma keeps_insert_one d : DOK d -> keeps (App1.insert_one d) (fun _ => True).
Proof.
  intros Hd. unfold App1.insert_one.
  eapply keeps_bind; [apply keeps_emit |]. intros _ _ env w _ Hw.
  split; [by apply Inv_insert | done].
Qed.

Lemma keeps_get_messages : keeps get_messages LOK.
Proof.
  unfold get_messages. eapply keeps_bind; [apply keeps_get |].
  intros w Hw. destruct (messages (session_state w)) as [l |] eqn:Hl.
  - apply keeps_ret. eapply SOK_LOK; [by apply Inv_SOK | done].
  - apply keeps_raise.
Qed.

Lemma keeps_set_messages l : LOK l -> keeps (set_messages l) (fun _ => True).
Proof.
  intros Hl. unfold set_messages. eapply keeps_bind; [apply keeps_get |].
  intros w Hw. apply keeps_set_session_state. by apply SOK_messages.
Qed.

Lemma keeps_find_ordered sid :
  keeps (App1.find_ordered sid)
    (fun docs =>
       LOK (map (fun d => {| role := doc_role d; content := doc_content d |})
                docs)).
Proof.
  unfold App1.find_ordered. eapply keeps_bind; [apply keeps_emit |].
  intros _ _. eapply keeps_bind; [apply keeps_ask |]. intros env Henv.
  eapply keeps_bind; [apply keeps_get |]. intros w Hw.
  apply keeps_ret. by apply LOK_find.
Qed.

(** Everything else is composed from the pieces above. *)
Ltac keeps_bind_step m :=
  lazymatch m with
  | get => eapply (keeps_bind _ _ Inv); [apply keeps_get | intros ? ?]
  | ask => eapply (keeps_bind _ _ Good); [apply keeps_ask | intros ? ?]
  | get_messages =>
      eapply (keeps_bind _ _ LOK); [apply keeps_get_messages | intros ? ?]
  | App1.find_ordered _ =>
      eapply keeps_bind; [apply keeps_find_ordered | intros ? ?]
  | _ => eapply (keeps_bind _ _ (fun _ => True)); [| intros ? _]
  end.

Ltac keeps_step :=
  lazymatch goal with
  | |- keeps (bind ?m _) _ => keeps_bind_step m
  | |- keeps (ret _) _ => by apply keeps_ret
  | |- keeps st_stop _ => apply keeps_stop
  | |- keeps (raise _) _ => apply keeps_raise
  | |- keeps (emit _) _ => apply keeps_emit
  | |- keeps (set_api_key _) _ => apply keeps_set_api_key
  | |- keeps utcnow _ => apply keeps_utcnow
  | |- keeps (set_session_state _) _ =>
      apply keeps_set_session_state;
      eauto using SOK_messages, SOK_start_time, SOK_session_id, Inv_SOK,
        LOK_nil
  | |- keeps (set_messages _) _ =>
      apply keeps_set_messages; unfold slice_last;
      eauto using LOK_user, LOK_assistant, LOK_drop
  | |- keeps (App1.insert_one _) _ =>
      apply keeps_insert_one; eauto using DOK_user, DOK_assistant
  | |- keeps (try_except _ _) _ =>
      apply keeps_try_except;
      [| let e := fresh "e" in
         let h := fresh "h" in
         let Hh := fresh "Hh" in
         intros e h Hh; destruct e; simpl in Hh; try discriminate;
         injection Hh as <-]
  | |- keeps (for_each _ _) _ => apply keeps_for_each; intros ?
  | |- keeps (match ?x with _ => _ end) _ => destruct x eqn:?
  | |- keeps (if ?x then _ else _) _ => destruct x eqn:?
  | |- keeps _ _ =>
      progress
        unfold st_error, chat_message, secret, append_message,
          ChatCompletion_create, display_messages, App.script,
          App.client_initialization, App.session_init, App.user_turn,
          App.build_messages, App.generate_ai_response, App.trim_history,
          App1.script, App1.secrets_validation, App1.mongodb_connection,
          App1.MongoClient, App1.get_session_id, App1.session_management,
          App1.build_messages, App1.save_message, App1.generate_response,
          App1.user_turn, App1.trim_history, App1.required_secrets
  end.

Lemma App_script_keeps : keeps App.script (fun _ => True).
Proof. repeat keeps_step. Qed.

Lemma App1_script_keeps : keeps App1.script (fun _ => True).
Proof. repeat keeps_step. Qed.

(** The invariant survives any number of runs. *)
Lemma reruns_keep (script : M unit) (envs : list Env) (w : World) :
  keeps script (fun _ => True) ->
  Forall Good envs -> Inv w -> Inv (reruns script envs w).
Proof.
  intros Hscript Henvs. revert w.
  induction Henvs as [| env envs Henv _ IH]; intros w Hw; simpl; [done |].
  apply IH. by apply Hscript.
Qed.

End Invariants.

(** ** The system instruction stays out of the buffer *)

Lemma App_script_no_system :
  keeps no_system_message (fun _ => True) App.script (fun _ => True).
Proof.
  apply (App_script_keeps no_system_message (fun _ => True)
           (fun s => forall l, messages s = Some l ->
                               Forall (fun m => role m <> "system") l)
           (Forall (fun m => role m <> "system"))).
  - done.
  - done.
  - done.
  - intros w s _ Hs. exact Hs.
  - intros w Hw. exact Hw.
  - intros s l Hs Hl. by apply Hs.
  - intros s l Hl l' [= <-]. exact Hl.
  - intros s t Hs. exact Hs.
  - done.
  - intros l c Hl. apply Forall_app. split; [done |]. by constructor.
  - intros l c Hl. apply Forall_app. split; [done |]. by constructor.
  - intros n l Hl. by apply Forall_drop.
Qed.

Lemma find_sort_contract_subset env coll sid d :
  find_sort_contract env -> d ∈ find_sort env coll sid -> d ∈ coll.
Proof.
  intros Hcontract Hd. destruct (Hcontract coll sid) as [Hperm _].
  rewrite Hperm in Hd. by apply list_elem_of_filter in Hd as [_ Hd].
Qed.

Lemma App1_script_no_system :
  keeps (fun w => no_system_message w /\ no_system_document w)
    find_sort_contract App1.script (fun _ => True).
Proof.
  apply (App1_script_keeps
           (fun w => no_system_message w /\ no_system_document w)
           find_sort_contract
           (fun s => forall l, messages s = Some l ->
                               Forall (fun m => role m <> "system") l)
           (Forall (fun m => role m <> "system"))
           (fun d => doc_role d <> "system")).
  - done.
  - done.
  - done.
  - intros w s [_ Hd] Hs. by split.
  - intros w d [Hm Hd] Hnew. split; [done |].
    apply Forall_app. split; [done |]. by constructor.
  - intros w [Hm _]. exact Hm.
  - intros s l Hs Hl. by apply Hs.
  - intros s l Hl l' [= <-]. exact Hl.
  - intros s i Hs. exact Hs.
  - intros l c Hl. apply Forall_app. split; [done |]. by constructor.
  - intros l c Hl. apply Forall_app. split; [done |]. by constructor.
  - intros n l Hl. by apply Forall_drop.
  - intros env w sid Henv [_ Hd]. apply Forall_map, Forall_forall.
    intros d Hin. simpl.
    apply (find_sort_contract_subset _ _ _ _ Henv) in Hin.
    unfold no_system_document in Hd. rewrite Forall_forall in Hd. by apply Hd.
  - done.
  - done.
Qed.

Lemma build_messages_run env w l :
  messages (session_state w) = Some l ->
  App.build_messages env w
  = (Returned ({| role := "system"; content := App.SYSTEM_PROMPT |} :: l), w)
  /\ App1.build_messages env w
     = (Returned ({| role := "system"; content := App1.SYSTEM_PROMPT |} :: l), w).
Proof. intros Hl. split; run_to. Qed.

(** C2. [build_messages] returns the system message followed by the buffer,
    one entry more than the buffer, and returns the world it was given.
    Whatever the runs and however they end, a buffer (and a collection) free
    of messages with role ["system"] stays free of them: the system message
    exists only in the request. *)
Theorem build_messages_prepends_system_prompt :
  forall (env : Env) (w : World) (s : SessionState) (l : list Message),
    let world := with_session w (with_messages s (Some l)) in
    let system_message :=
      {| role := "system"; content := App.SYSTEM_PROMPT |} in
    let system_message1 :=
      {| role := "system"; content := App1.SYSTEM_PROMPT |} in
    App.build_messages env world = (Returned (system_message :: l), world)
    /\ App1.build_messages env world = (Returned (system_message1 :: l), world)
    /\ length (system_message :: l) = length l + 1
    /\ (system_message :: l) !! 0 = Some system_message
    /\ drop 1 (system_message :: l) = l
    /\ no_system_message fresh_world
    /\ (forall envs w0,
          no_system_message w0 ->
          no_system_message (reruns App.script envs w0))
    /\ (forall envs w0,
          Forall find_sort_contract envs ->
          no_system_message w0 ->
          no_system_document w0 ->
          no_system_message (reruns App1.script envs w0)
          /\ no_system_document (reruns App1.script envs w0)).
Proof.
  intros env w s l world system_message system_message1.
  destruct (build_messages_run env world l eq_refl) as [Happ Happ1].
  split; [done |]. split; [done |]. split; [simpl; lia |].
  split; [done |]. split; [done |]. split; [by intros ? [=] |]. split.
  - intros envs w0 Hw0.
    apply (reruns_keep no_system_message (fun _ => True));
      [apply App_script_no_system | | done].
    by apply Forall_forall.
  - intros envs w0 Henvs Hm Hd.
    by apply (reruns_keep
                (fun w => no_system_message w /\ no_system_document w)
                find_sort_contract);
      [apply App1_script_no_system | |].
Qed.

Lemma build_messages_prepends_system_prompt_witness :
  let answer := {| resp_content := lit "ok"; total_tokens := 3%Z |} in
  let envs :=
    [sample_env None (fun _ => inr answer);
     sample_env (Some (lit "hi")) (fun _ => inr answer)] in
  no_system_message (reruns App.script envs fresh_world)
  /\ no_system_message (reruns App1.script envs fresh_world).
Proof.
  intros answer envs.
  destruct (build_messages_prepends_system_prompt
              (sample_env None (fun _ => inr answer)) fresh_world
              (session_state fresh_world) [])
    as (_ & _ & _ & _ & _ & Hfresh & Happ & Happ1).
  split.
  - by apply Happ.
  - apply Happ1; [| done | constructor].
    repeat constructor; by apply stable_find_sort_contract.
Defined.

(** ** The store only grows *)

Lemma App1_script_grows (c0 : list Document) :
  keeps (fun w => c0 `prefix_of` collection w) (fun _ => True) App1.script
    (fun _ => True).
Proof.
  apply (App1_script_keeps (fun w => c0 `prefix_of` collection w)
           (fun _ => True) (fun _ => True) (fun _ => True) (fun _ => True));
    try done.
  intros w d Hw _. simpl. by apply prefix_app_r.
Qed.

Lemma reruns_grow (envs : list Env) (w : World) :
  collection w `prefix_of` collection (reruns App1.script envs w).
Proof.
  apply (reruns_keep (fun w' => collection w `prefix_of` collection w')
           (fun _ => True)); [apply App1_script_grows | | done].
  by apply Forall_forall.
Qed.

(** C9. In the persistent variant the user's document is inserted before
    the provider request goes out, and a failed request leaves it in the
    collection: the run appends exactly that document, with no assistant
    document, and every later run only appends to the collection. *)
Theorem user_insert_precedes_request_and_stays :
  forall (env : Env) (w : World) (key uri text : str) (e : exn),
    secrets env !! "OPENAI_API_KEY" = Some key ->
    secrets env !! "MONGODB_URI" = Some uri ->
    mongo_startup env = None ->
    chat_input env = Some text ->
    text <> [] ->
    length text <= 2000 ->
    let user_document :=
      {| doc_session_id := App1.current_session_id env w; doc_role := "user";
         doc_content := text; doc_token_usage := None;
         doc_created_at := clock env (clock_reads w) |} in
    let request :=
      App1.completion_request
        ({| role := "system"; content := App1.SYSTEM_PROMPT |}
         :: App1.buffer_on_entry env w ++ [{| role := "user"; content := text |}]) in
    provider env request = inl e ->
    exists w',
      App1.script env w = (Returned tt, w')
      /\ store_and_provider (trace w')
         = store_and_provider (trace w) ++
           [InsertOne user_document; ChatCompletionCreate request]
      /\ store_inserts (trace w') = store_inserts (trace w) ++ [user_document]
      /\ collection w' = collection w ++ [user_document]
      /\ forall envs : list Env,
           exists later,
             collection (reruns App1.script envs w')
             = collection w ++ [user_document] ++ later.
Proof.
  intros env w key uri text e Hkey Huri Hmongo Hin Hne Hlen user_document
    request Hp.
  destruct (App1_turn_failure env w key uri text e Hkey Huri Hmongo Hin Hne
              Hlen Hp) as (w' & Hrun & _ & _ & Hcoll & Htrace).
  exists w'. split; [done |]. rewrite Htrace.
  split; [by destruct (messages (session_state w)); trace_simpl |].
  split; [by destruct (messages (session_state w)); trace_simpl |].
  split; [done |].
  intros envs. destruct (reruns_grow envs w') as [later Hlater].
  exists later. by rewrite Hlater, Hcoll, <- app_assoc.
Qed.

Lemma user_insert_precedes_request_and_stays_witness :
  let env := sample_env (Some (lit "hi")) (fun _ => inl Timeout) in
  exists w' d,
    App1.script env fresh_world = (Returned tt, w')
    /\ collection w' = [d]
    /\ doc_role d = "user"
    /\ doc_content d = lit "hi".
Proof.
  intros env.
  destruct (user_insert_precedes_request_and_stays env fresh_world
              (lit "sk-test") (lit "mongodb://localhost:27017") (lit "hi")
              Timeout)
    as (w' & Hrun & _ & _ & Hcoll & _);
    [reflexivity | reflexivity | reflexivity | reflexivity | discriminate
    | simpl; lia | reflexivity |].
  eexists w', _. split; [exact Hrun |]. split; [exact Hcoll |].
  split; reflexivity.
Defined.

(** * Further properties of the scripts *)

(** ** Completed turns *)

Lemma trim_keeps_turn (l : list Message) (a b : Message) :
  exists kept, trim (l ++ [a; b]) = kept ++ [a; b] /\ kept `suffix_of` l.
Proof.
  unfold trim, slice_last. case_match.
  - exists (drop (length (l ++ [a; b]) - MAX_MESSAGES) l).
    split; [| apply suffix_drop].
    rewrite length_app. simpl.
    by rewrite drop_app_le by (unfold MAX_MESSAGES; lia).
  - by exists l.
Qed.

(** X1. A turn of [app.py] whose provider call succeeds with a reply that is
    not blank: the request carries the system message, the whole buffer and
    the new user message (it is built before any trimming); the buffer ends
    with the user message and the stripped reply, in that order, whatever
    trimming removed in front of them; both are drawn after the replayed
    history; no [st.error] is raised and one request is sent. *)
Theorem App_completed_turn :
  forall (env : Env) (w : World) (key text : str) (response : Response),
    secrets env !! "OPENAI_API_KEY" = Some key ->
    chat_input env = Some text ->
    text <> [] ->
    length text <= 2000 ->
    let buffer := default [] (messages (session_state w)) in
    let user_message := {| role := "user"; content := text |} in
    let request :=
      App.completion_request
        ({| role := "system"; content := App.SYSTEM_PROMPT |}
         :: buffer ++ [user_message]) in
    let assistant_message :=
      {| role := "assistant"; content := strip (resp_content response) |} in
    provider env request = inr response ->
    strip (resp_content response) <> [] ->
    exists w',
      App.script env w = (Returned tt, w')
      /\ messages (session_state w')
         = Some (trim (buffer ++ [user_message; assistant_message]))
      /\ (exists kept,
            trim (buffer ++ [user_message; assistant_message])
            = kept ++ [user_message; assistant_message]
            /\ kept `suffix_of` buffer)
      /\ chat_messages (trace w')
         = chat_messages (trace w) ++ buffer ++
           [user_message; assistant_message]
      /\ st_errors (trace w') = st_errors (trace w)
      /\ provider_requests (trace w') = provider_requests (trace w) ++ [request]
      /\ length (req_messages request) = length buffer + 2.
Proof.
  intros env w key text response Hkey Hin Hne Hlen buffer user_message request
    assistant_message Hp Hreply.
  destruct (App_turn_reply env w key text response Hkey Hin Hne Hlen Hp)
    as (w' & Hrun & Hbuf & _ & Htrace).
  assert (Htruthy : str_truthy (strip (resp_content response)) = true)
    by (by destruct (strip (resp_content response))).
  rewrite Htruthy in Hbuf, Htrace.
  exists w'. split; [done |]. split; [done |].
  split; [apply trim_keeps_turn |]. rewrite Htrace.
  split; [by trace_simpl |]. split; [by trace_simpl |].
  split; [by trace_simpl |].
  simpl. rewrite length_app. simpl. lia.
Qed.

Lemma App_completed_turn_witness :
  let answer := {| resp_content := lit " Rest and fluids. "; total_tokens := 12%Z |} in
  exists w',
    App.script (sample_env (Some (lit "hi")) (fun _ => inr answer)) fresh_world
    = (Returned tt, w')
    /\ messages (session_state w')
       = Some [{| role := "user"; content := lit "hi" |};
               {| role := "assistant"; content := lit "Rest and fluids." |}].
Proof.
  intros answer.
  destruct (App_completed_turn
              (sample_env (Some (lit "hi")) (fun _ => inr answer)) fresh_world
              (lit "sk-test") (lit "hi") answer)
    as (w' & Hrun & Hbuf & _);
    [reflexivity | reflexivity | discriminate | simpl; lia | reflexivity
    | by vm_compute |].
  exists w'. split; [exact Hrun | exact Hbuf].
Defined.

(** X2. A turn of [app_1.py] whose provider call succeeds with a reply that
    is not blank: the user's document is inserted, then the request is sent,
    then the assistant's document is inserted with the token count of the
    response; both carry the session identifier, the collection gains exactly
    these two documents, and the buffer ends with the two messages. *)
Theorem App1_completed_turn :
  forall (env : Env) (w : World) (key uri text : str) (response : Response),
    secrets env !! "OPENAI_API_KEY" = Some key ->
    secrets env !! "MONGODB_URI" = Some uri ->
    mongo_startup env = None ->
    chat_input env = Some text ->
    text <> [] ->
    length text <= 2000 ->
    let sid := App1.current_session_id env w in
    let buffer := App1.buffer_on_entry env w in
    let user_message := {| role := "user"; content := text |} in
    let assistant_message :=
      {| role := "assistant"; content := strip (resp_content response) |} in
    let user_document :=
      {| doc_session_id := sid; doc_role := "user"; doc_content := text;
         doc_token_usage := None; doc_created_at := clock env (clock_reads w) |} in
    let assistant_document :=
      {| doc_session_id := sid; doc_role := "assistant";
         doc_content := strip (resp_content response);
         doc_token_usage := Some (total_tokens response);
         doc_created_at := clock env (S (clock_reads w)) |} in
    let request :=
      App1.completion_request
        ({| role := "system"; content := App1.SYSTEM_PROMPT |}
         :: buffer ++ [user_message]) in
    provider env request = inr response ->
    strip (resp_content response) <> [] ->
    exists w',
      App1.script env w = (Returned tt, w')
      /\ messages (session_state w')
         = Some (trim (buffer ++ [user_message; assistant_message]))
      /\ session_id (session_state w') = Some sid
      /\ collection w' = collection w ++ [user_document; assistant_document]
      /\ store_and_provider (trace w')
         = store_and_provider (trace w) ++
           [InsertOne user_document; ChatCompletionCreate request;
            InsertOne assistant_document]
      /\ chat_messages (trace w')
         = chat_messages (trace w) ++ buffer ++
           [user_message; assistant_message]
      /\ st_errors (trace w') = st_errors (trace w)
      /\ length (req_messages request) = length buffer + 2.
Proof.
  intros env w key uri text response Hkey Huri Hmongo Hin Hne Hlen sid buffer
    user_message assistant_message user_document assistant_document request
    Hp Hreply.
  destruct (App1_turn_reply env w key uri text response Hkey Huri Hmongo Hin
              Hne Hlen Hp) as (w' & Hrun & Hbuf & Hsid & Hcoll & Htrace).
  assert (Htruthy : str_truthy (strip (resp_content response)) = true)
    by (by destruct (strip (resp_content response))).
  rewrite Htruthy in Hbuf, Hcoll, Htrace.
  exists w'. split; [done |]. split; [done |]. split; [done |].
  split; [done |]. rewrite Htrace.
  split; [by destruct (messages (session_state w)); simpl; trace_simpl |].
  split; [by destruct (messages (session_state w)); simpl; trace_simpl |].
  split; [by destruct (messages (session_state w)); simpl; trace_simpl |].
  simpl. rewrite length_app. simpl. lia.
Qed.

Lemma App1_completed_turn_witness :
  let answer := {| resp_content := lit " Hello! "; total_tokens := 12%Z |} in
  exists w' d1 d2,
    App1.script (sample_env (Some (lit "hi")) (fun _ => inr answer))
      fresh_world = (Returned tt, w')
    /\ collection w' = [d1; d2]
    /\ doc_content d2 = lit "Hello!"
    /\ doc_token_usage d2 = Some 12%Z.
Proof.
  intros answer.
  destruct (App1_completed_turn
              (sample_env (Some (lit "hi")) (fun _ => inr answer)) fresh_world
              (lit "sk-test") (lit "mongodb://localhost:27017") (lit "hi")
              answer)
    as (w' & Hrun & _ & _ & Hcoll & _);
    [reflexivity | reflexivity | reflexivity | reflexivity | discriminate
    | simpl; lia | reflexivity | by vm_compute |].
  eexists w', _, _. split; [exact Hrun |]. split; [exact Hcoll |].
  split; [by vm_compute | reflexivity].
Defined.

(** ** Runs without a submission *)

Lemma App_run_without_input env w key :
  secrets env !! "OPENAI_API_KEY" = Some key ->
  truthy (chat_input env) = false ->
  let buffer := default [] (messages (session_state w)) in
  exists w',
    App.script env w = (Returned tt, w')
    /\ messages (session_state w') = Some buffer
    /\ collection w' = collection w
    /\ trace w'
       = trace w ++ [PageConfig; StTitle; StCaption] ++ map display buffer ++
         [StDivider; StWarning].
Proof.
  intros Hkey Hfalsy buffer. subst buffer.
  assert (Hin : chat_input env = Some [] \/ chat_input env = None).
  { destruct (chat_input env) as [[| c text] |]; [by left | done | by right]. }
  assert (Hempty : str_truthy [] = false) by done.
  destruct Hin as [Hin | Hin]; split_session w;
    (eexists; split; [run |]); (split; [done |]); (split; [done |]); trace_eq.
Qed.

Lemma App1_run_without_input env w key uri :
  secrets env !! "OPENAI_API_KEY" = Some key ->
  secrets env !! "MONGODB_URI" = Some uri ->
  mongo_startup env = None ->
  truthy (chat_input env) = false ->
  let sid := App1.current_session_id env w in
  let buffer := App1.buffer_on_entry env w in
  exists w',
    App1.script env w = (Returned tt, w')
    /\ messages (session_state w') = Some buffer
    /\ session_id (session_state w') = Some sid
    /\ collection w' = collection w
    /\ trace w'
       = trace w ++
         [PageConfig; MongoConnect uri;
          Log (LogInfo "MongoDB connected successfully"); StTitle; StCaption] ++
         match messages (session_state w) with
         | Some _ => []
         | None => [Find sid]
         end ++
         map display buffer ++ [StDivider; StWarning].
Proof.
  intros Hkey Huri Hmongo Hfalsy sid buffer. subst sid buffer.
  assert (Hin : chat_input env = Some [] \/ chat_input env = None).
  { destruct (chat_input env) as [[| c text] |]; [by left | done | by right]. }
  assert (Hempty : str_truthy [] = false) by done.
  destruct Hin as [Hin | Hin]; split_session1 w;
    (eexists; split; [run |]); (split; [done |]); (split; [done |]);
    (split; [done |]); trace_eq.
Qed.

(** X3. A run with nothing submitted, whether the chat box returns [None]
    or the empty string, falls through the turn in both variants: the buffer
    is the one on entry (created empty, or loaded, when there was none), the
    history is drawn again in order, and the run sends no request, raises no
    [st.error] and writes nothing to the collection. *)
Theorem run_without_input_only_redraws :
  forall (env : Env) (w : World) (key : str),
    secrets env !! "OPENAI_API_KEY" = Some key ->
    truthy (chat_input env) = false ->
    (let buffer := default [] (messages (session_state w)) in
     exists w',
       App.script env w = (Returned tt, w')
       /\ messages (session_state w') = Some buffer
       /\ chat_messages (trace w') = chat_messages (trace w) ++ buffer
       /\ provider_requests (trace w') = provider_requests (trace w)
       /\ st_errors (trace w') = st_errors (trace w))
    /\
    (forall uri : str,
       secrets env !! "MONGODB_URI" = Some uri ->
       mongo_startup env = None ->
       let buffer := App1.buffer_on_entry env w in
       exists w',
         App1.script env w = (Returned tt, w')
         /\ messages (session_state w') = Some buffer
         /\ chat_messages (trace w') = chat_messages (trace w) ++ buffer
         /\ provider_requests (trace w') = provider_requests (trace w)
         /\ st_errors (trace w') = st_errors (trace w)
         /\ store_inserts (trace w') = store_inserts (trace w)
         /\ collection w' = collection w).
Proof.
  intros env w key Hkey Hfalsy. split.
  - intros buffer.
    destruct (App_run_without_input env w key Hkey Hfalsy)
      as (w' & Hrun & Hbuf & _ & Htrace).
    exists w'. split; [done |]. split; [done |]. rewrite Htrace.
    by trace_simpl.
  - intros uri Huri Hmongo buffer.
    destruct (App1_run_without_input env w key uri Hkey Huri Hmongo Hfalsy)
      as (w' & Hrun & Hbuf & _ & Hcoll & Htrace).
    exists w'. split; [done |]. split; [done |]. rewrite Htrace.
    by destruct (messages (session_state w)); trace_simpl.
Qed.

Lemma run_without_input_only_redraws_witness :
  let w :=
    with_session fresh_world
      (with_messages (session_state fresh_world)
         (Some [{| role := "user"; content := lit "hi" |}])) in
  (exists w',
     App.script (sample_env (Some []) (fun _ => inl OtherException)) w
     = (Returned tt, w')
     /\ chat_messages (trace w') = [{| role := "user"; content := lit "hi" |}])
  /\ (exists w',
        App1.script (sample_env None (fun _ => inl OtherException)) w
        = (Returned tt, w')
        /\ chat_messages (trace w')
           = [{| role := "user"; content := lit "hi" |}]).
Proof.
  intros w. split.
  - destruct (run_without_input_only_redraws
                (sample_env (Some []) (fun _ => inl OtherException)) w
                (lit "sk-test")) as [Happ _]; [reflexivity | reflexivity |].
    destruct Happ as (w' & Hrun & _ & Hdrawn & _).
    exists w'. split; [exact Hrun | exact Hdrawn].
  - destruct (run_without_input_only_redraws
                (sample_env None (fun _ => inl OtherException)) w
                (lit "sk-test")) as [_ Happ1]; [reflexivity | reflexivity |].
    destruct (Happ1 (lit "mongodb://localhost:27017"))
      as (w' & Hrun & _ & Hdrawn & _); [reflexivity | reflexivity |].
    exists w'. split; [exact Hrun | exact Hdrawn].
Defined.

(** ** The provider call contains every failure *)

(** X4. [generate_ai_response] and [generate_response] always return: no
    exception of the provider call escapes them and they never stop the
    run.  They send one request, leave the session state and the collection
    alone, and answer [None] exactly when the call raised, with one
    [st.error]; otherwise they answer the stripped content (and, in
    [app_1.py], the token count) without any [st.error]. *)
Theorem provider_call_contains_failures :
  forall (env : Env) (w : World) (messages : list Message),
    (exists reply w',
       App.generate_ai_response messages env w = (Returned reply, w')
       /\ session_state w' = session_state w
       /\ collection w' = collection w
       /\ provider_requests (trace w')
          = provider_requests (trace w) ++ [App.completion_request messages]
       /\ match provider env (App.completion_request messages) with
          | inl _ =>
              reply = None
              /\ length (st_errors (trace w'))
                 = S (length (st_errors (trace w)))
          | inr response =>
              reply = Some (strip (resp_content response))
              /\ st_errors (trace w') = st_errors (trace w)
          end)
    /\
    (exists reply tokens w',
       App1.generate_response messages env w = (Returned (reply, tokens), w')
       /\ session_state w' = session_state w
       /\ collection w' = collection w
       /\ provider_requests (trace w')
          = provider_requests (trace w) ++ [App1.completion_request messages]
       /\ match provider env (App1.completion_request messages) with
          | inl _ =>
              reply = None /\ tokens = None
              /\ length (st_errors (trace w'))
                 = S (length (st_errors (trace w)))
          | inr response =>
              reply = Some (strip (resp_content response))
              /\ tokens = Some (total_tokens response)
              /\ st_errors (trace w') = st_errors (trace w)
          end).
Proof.
  intros env w messages. split.
  - destruct (provider env (App.completion_request messages))
      as [e | response] eqn:Hp.
    + eexists _, _. split; [by apply App_generate_failure |].
      split; [done |]. split; [done |]. trace_simpl.
      split; [done |]. split; [done |].
      rewrite length_app. simpl. lia.
    + eexists _, _. split; [by apply App_generate_success |].
      split; [done |]. split; [done |]. by trace_simpl.
  - destruct (provider env (App1.completion_request messages))
      as [e | response] eqn:Hp.
    + eexists _, _, _. split; [by apply App1_generate_failure |].
      split; [done |]. split; [done |]. trace_simpl.
      split; [done |]. split; [done |]. split; [done |].
      rewrite length_app. simpl. lia.
    + eexists _, _, _. split; [by apply App1_generate_success |].
      split; [done |]. split; [done |]. by trace_simpl.
Qed.

(** ** Start-up exceptions that are not caught *)

(** X6. The connection block of [app_1.py] handles [ConnectionFailure]
    only: any other exception raised while connecting leaves the script
    uncaught, before any [st.error], session update, store access or
    provider request. *)
Theorem other_startup_exception_escapes :
  forall (env : Env) (w : World) (key uri : str) (e : exn),
    secrets env !! "OPENAI_API_KEY" = Some key ->
    secrets env !! "MONGODB_URI" = Some uri ->
    mongo_startup env = Some e ->
    e <> ConnectionFailure ->
    App1.script env w
    = (Raised e,
       with_api_key
         (with_trace w (trace w ++ [PageConfig; MongoConnect uri]))
         (Some key)).
Proof.
  intros env w key uri e Hkey Huri Hmongo He. destruct e; [| | done | | |];
    run_to.
Qed.

Lemma other_startup_exception_escapes_witness :
  let env :=
    {| secrets := sample_secrets; chat_input := Some (lit "hi");
       provider := fun _ => inl OtherException; clock := fun _ => 0%Z;
       uuid4 := lit "6f1c"; mongo_startup := Some OtherException;
       find_sort := stable_find_sort |} in
  fst (App1.script env fresh_world) = Raised OtherException
  /\ st_errors (trace (snd (App1.script env fresh_world))) = [].
Proof.
  intros env.
  rewrite (other_startup_exception_escapes env fresh_world (lit "sk-test")
             (lit "mongodb://localhost:27017") OtherException)
    by (reflexivity || discriminate).
  split; reflexivity.
Defined.

(** ** What stripping leaves *)

Lemma lstrip_spec (s : str) :
  exists margin,
    s = margin ++ lstrip s
    /\ Forall (fun c => isspace c = true) margin
    /\ (forall c rest, lstrip s = c :: rest -> isspace c = false).
Proof.
  induction s as [| c s (margin & Hs & Hmargin & Hhead)]; simpl.
  - exists []. by repeat split.
  - destruct (isspace c) eqn:Hc.
    + exists (c :: margin). split; [by rewrite Hs at 1 |].
      split; [by constructor | done].
    + exists []. split; [done |]. split; [done |]. by intros ? ? [= <- _].
Qed.

Lemma rstrip_spec (s : str) :
  exists margin,
    s = rstrip s ++ margin
    /\ Forall (fun c => isspace c = true) margin
    /\ (forall c, last (rstrip s) = Some c -> isspace c = false).
Proof.
  unfold rstrip. destruct (lstrip_spec (rev s)) as (margin & Hs & Hmargin & Hhead).
  exists (rev margin). split; [| split].
  - rewrite <- rev_app_distr, <- Hs. by rewrite rev_involutive.
  - by apply Forall_rev.
  - intros c Hlast. destruct (lstrip (rev s)) as [| c' rest] eqn:Hl; [done |].
    simpl in Hlast. rewrite last_snoc in Hlast. injection Hlast as <-.
    by apply (Hhead c' rest).
Qed.

Lemma strip_spec (s : str) :
  exists before after,
    s = before ++ strip s ++ after
    /\ Forall (fun c => isspace c = true) before
    /\ Forall (fun c => isspace c = true) after
    /\ (forall c rest, strip s = c :: rest -> isspace c = false)
    /\ (forall c, last (strip s) = Some c -> isspace c = false).
Proof.
  unfold strip.
  destruct (lstrip_spec s) as (before & Hs & Hbefore & Hhead).
  destruct (rstrip_spec (lstrip s)) as (after & Hl & Hafter & Hlast).
  exists before, after. split; [by rewrite <- Hl |].
  split; [done |]. split; [done |]. split; [| done].
  intros c rest Hstrip. rewrite Hstrip in Hl. by apply (Hhead c (rest ++ after)).
Qed.

(** X5. The reply either script takes from a successful provider call is
    the response content without its margins: the content is the reply
    between two runs of whitespace, and the reply neither starts nor ends
    with a whitespace character. *)
Theorem reply_is_content_without_margins :
  forall (env : Env) (w : World) (messages : list Message) (response : Response),
    let reply := strip (resp_content response) in
    (provider env (App.completion_request messages) = inr response ->
     fst (App.generate_ai_response messages env w) = Returned (Some reply))
    /\ (provider env (App1.completion_request messages) = inr response ->
        fst (App1.generate_response messages env w)
        = Returned (Some reply, Some (total_tokens response)))
    /\ (exists before after,
          resp_content response = before ++ reply ++ after
          /\ Forall (fun c => isspace c = true) before
          /\ Forall (fun c => isspace c = true) after)
    /\ (forall c rest, reply = c :: rest -> isspace c = false)
    /\ (forall c, last reply = Some c -> isspace c = false).
Proof.
  intros env w messages response reply.
  split; [intros Hp; by rewrite (App_generate_success _ _ _ _ Hp) |].
  split; [intros Hp; by rewrite (App1_generate_success _ _ _ _ Hp) |].
  destruct (strip_spec (resp_content response))
    as (before & after & Hs & Hbefore & Hafter & Hhead & Hlast).
  split; [by exists before, after |]. by split.
Qed.

Lemma reply_is_content_without_margins_witness :
  let answer := {| resp_content := lit "  Drink water.  "; total_tokens := 4%Z |} in
  fst (App.generate_ai_response [] (sample_env None (fun _ => inr answer))
         fresh_world)
  = Returned (Some (lit "Drink water.")).
Proof.
  intros answer.
  destruct (reply_is_content_without_margins
              (sample_env None (fun _ => inr answer)) fresh_world [] answer)
    as [Happ _].
  rewrite Happ by reflexivity. reflexivity.
Defined.

(** ** Trimming composes *)

Lemma trim_keeps_appended (l new : list Message) :
  length new <= MAX_MESSAGES ->
  exists kept, trim (l ++ new) = kept ++ new /\ kept `suffix_of` l.
Proof.
  intros Hnew. unfold trim, slice_last. case_match.
  - exists (drop (length (l ++ new) - MAX_MESSAGES) l).
    split; [| apply suffix_drop].
    rewrite length_app. by rewrite drop_app_le by lia.
  - by exists l.
Qed.

Lemma trim_idempotent (l : list Message) : trim (trim l) = trim l.
Proof. apply trim_short. rewrite trim_length. lia. Qed.

(** X10. Trimming is idempotent, in both scripts running [trim_history]
    twice is running it once, and trimming right after appending up to 20
    messages never removes any of them: only older messages go. *)
Theorem trim_history_composes :
  forall (env : Env) (w : World) (s : SessionState) (l new : list Message),
    let world := with_session w (with_messages s (Some l)) in
    trim (trim l) = trim l
    /\ (App.trim_history >>> App.trim_history) env world
       = App.trim_history env world
    /\ (App1.trim_history >>> App1.trim_history) env world
       = App1.trim_history env world
    /\ (length new <= MAX_MESSAGES ->
        exists kept, trim (l ++ new) = kept ++ new /\ kept `suffix_of` l).
Proof.
  intros env w s l new world. split; [apply trim_idempotent |].
  assert (Htwice :
    (App.trim_history >>> App.trim_history) env world
    = App.trim_history env world).
  { unfold bind. rewrite (App_trim_history_run env world l) by done.
    rewrite (App_trim_history_run env _ (trim l)) by done.
    by rewrite trim_idempotent. }
  split; [done |]. split; [exact Htwice |]. apply trim_keeps_appended.
Qed.

Lemma trim_history_composes_witness :
  let new := [{| role := "user"; content := lit "hi" |};
              {| role := "assistant"; content := lit "hello" |}] in
  let old := replicate 20 {| role := "user"; content := lit "old" |} in
  trim (old ++ new) = drop 2 old ++ new.
Proof.
  intros new old.
  destruct (trim_history_composes (sample_env None (fun _ => inl Timeout))
              fresh_world (session_state fresh_world) old new)
    as (_ & _ & _ & Hkeep).
  destruct Hkeep as (kept & Htrim & Hsuffix); [simpl; unfold MAX_MESSAGES; lia |].
  rewrite Htrim. f_equal.
  apply (f_equal length) in Htrim. rewrite trim_length, !length_app in Htrim.
  destruct Hsuffix as [gone Hold].
  apply (f_equal length) in Hold as Hlen. rewrite length_app in Hlen.
  assert (Hgone : length gone = 2)
    by (unfold old, new, MAX_MESSAGES in *; rewrite length_replicate in *;
        simpl in *; lia).
  rewrite Hold. by rewrite drop_app_length' by done.
Defined.

(** ** How a run can end *)

#[global] Instance exn_eq_dec : EqDecision exn.
Proof. solve_decision. Defined.

Lemma App_startup_no_key env w :
  secrets env !! "OPENAI_API_KEY" = None ->
  App.script env w
  = (Stopped,
     with_trace w
       (trace w ++ [PageConfig; StError "OpenAI API key not configured."])).
Proof. intros Hkey. run_to. Qed.

Lemma App1_startup_no_key env w :
  secrets env !! "OPENAI_API_KEY" = None ->
  App1.script env w
  = (Stopped,
     with_trace w
       (trace w ++
        [PageConfig; StError "Missing required secret: OPENAI_API_KEY"])).
Proof. intros Hkey. run_to. Qed.

Lemma App1_startup_no_uri env w key :
  secrets env !! "OPENAI_API_KEY" = Some key ->
  secrets env !! "MONGODB_URI" = None ->
  App1.script env w
  = (Stopped,
     with_trace w
       (trace w ++ [PageConfig; StError "Missing required secret: MONGODB_URI"])).
Proof. intros Hkey Huri. run_to. Qed.

Lemma App1_startup_connection_failure env w key uri :
  secrets env !! "OPENAI_API_KEY" = Some key ->
  secrets env !! "MONGODB_URI" = Some uri ->
  mongo_startup env = Some ConnectionFailure ->
  App1.script env w
  = (Stopped,
     with_api_key
       (with_trace w
          (trace w ++
           [PageConfig; MongoConnect uri;
            Log (LogError "MongoDB connection failed");
            StError "Database connection failed."]))
       (Some key)).
Proof. intros Hkey Huri Hmongo. run_to. Qed.

Lemma App1_startup_escape env w key uri e :
  secrets env !! "OPENAI_API_KEY" = Some key ->
  secrets env !! "MONGODB_URI" = Some uri ->
  mongo_startup env = Some e ->
  e <> ConnectionFailure ->
  App1.script env w
  = (Raised e,
     with_api_key
       (with_trace w (trace w ++ [PageConfig; MongoConnect uri]))
       (Some key)).
Proof.
  intros Hkey Huri Hmongo He. destruct e; [| | done | | |]; run_to.
Qed.

(** The submissions the chat box can hand to a run. *)
Lemma chat_input_cases env :
  truthy (chat_input env) = false
  \/ (exists text, chat_input env = Some text /\ 2000 < length text)
  \/ (exists text,
        chat_input env = Some text /\ text <> [] /\ length text <= 2000).
Proof.
  destruct (chat_input env) as [[| c text] |]; [by left | | by left].
  destruct (decide (2000 < length (c :: text))) as [Hlong | Hshort].
  - right. left. by eexists.
  - right. right. eexists. split; [done |]. split; [done | lia].
Qed.





(** ** The buffer bound across runs *)





(** ** Fields of the session that are written once *)

Section WriteOnce.

(** An invariant of the world that constrains the session state through
    [SOK]; the session identifiers read back satisfy [IOK] and the documents
    built from them satisfy [DOK]. *)
Variable Inv : World -> Prop.
Variable Good : Env -> Prop.
Variable SOK : SessionState -> Prop.
Variable IOK : str -> Prop.
Variable DOK : Document -> Prop.

Hypothesis Inv_trace : forall w t, Inv w -> Inv (with_trace w t).
Hypothesis Inv_api_key : forall w k, Inv w -> Inv (with_api_key w k).
Hypothesis Inv_clock : forall w n, Inv w -> Inv (with_clock_reads w n).
Hypothesis Inv_session : forall w s, Inv w -> SOK s -> Inv (with_session w s).
Hypothesis Inv_insert :
  forall w d, Inv w -> DOK d -> Inv (with_collection w (collection w ++ [d])).
Hypothesis Inv_SOK : forall w, Inv w -> SOK (session_state w).
Hypothesis SOK_messages : forall s l, SOK s -> SOK (with_messages s l).
Hypothesis SOK_first_start_time :
  forall s t,
    SOK s -> conversation_start_time s = None -> SOK (with_start_time s t).
Hypothesis SOK_first_session_id :
  forall s i, SOK s -> session_id s = None -> SOK (with_session_id s i).
Hypothesis SOK_IOK : forall s i, SOK s -> session_id s = Some i -> IOK i.
Hypothesis DOK_document :
  forall i r c t now,
    IOK i ->
    DOK {| doc_session_id := i; doc_role := r; doc_content := c;
           doc_token_usage := t; doc_created_at := now |}.

Lemma once_get_session_id : keeps Inv Good App1.get_session_id IOK.
Proof.
  unfold App1.get_session_id. eapply keeps_bind; [apply keeps_get |].
  intros w Hw. destruct (session_id (session_state w)) as [i |] eqn:Hi.
  - apply keeps_ret. eapply SOK_IOK; [by apply Inv_SOK | done].
  - apply keeps_raise.
Qed.

Ltac once_bind_step m :=
  lazymatch m with
  | get => eapply (keeps_bind _ _ _ _ Inv); [apply keeps_get | intros ? ?]
  | ask => eapply (keeps_bind _ _ _ _ Good); [apply keeps_ask | intros ? ?]
  | App1.get_session_id =>
      eapply (keeps_bind _ _ _ _ IOK);
      [apply once_get_session_id | intros ? ?]
  | _ => eapply (keeps_bind _ _ _ _ (fun _ => True)); [| intros ? _]
  end.

Ltac once_step :=
  lazymatch goal with
  | |- keeps _ _ (bind ?m _) _ => once_bind_step m
  | |- keeps _ _ (ret _) _ => by apply keeps_ret
  | |- keeps _ _ st_stop _ => apply keeps_stop
  | |- keeps _ _ (raise _) _ => apply keeps_raise
  | |- keeps _ _ (emit _) _ => by apply keeps_emit
  | |- keeps _ _ (set_api_key _) _ => by apply keeps_set_api_key
  | |- keeps _ _ utcnow _ => by apply keeps_utcnow
  | |- keeps _ _ (set_session_state _) _ =>
      apply (keeps_set_session_state _ _ SOK); [done |];
      eauto using SOK_messages, SOK_first_start_time, SOK_first_session_id,
        Inv_SOK
  | |- keeps _ _ (App1.insert_one _) _ =>
      apply (keeps_insert_one _ _ DOK); [done | done |];
      eauto using DOK_document
  | |- keeps _ _ (try_except _ _) _ =>
      apply keeps_try_except;
      [| let e := fresh "e" in
         let h := fresh "h" in
         let Hh := fresh "Hh" in
         intros e h Hh; destruct e; simpl in Hh; try discriminate;
         injection Hh as <-]
  | |- keeps _ _ (for_each _ _) _ => apply keeps_for_each; intros ?
  | |- keeps _ _ (match ?x with _ => _ end) _ => destruct x eqn:?
  | |- keeps _ _ (if ?x then _ else _) _ => destruct x eqn:?
  | |- keeps _ _ _ _ =>
      progress
        unfold st_error, chat_message, secret, get_messages, set_messages,
          append_message, ChatCompletion_create, display_messages,
          App.script, App.client_initialization, App.session_init,
          App.user_turn, App.build_messages, App.generate_ai_response,
          App.trim_history, App1.script, App1.secrets_validation,
          App1.mongodb_connection, App1.MongoClient, App1.find_ordered,
          App1.session_management, App1.build_messages, App1.save_message,
          App1.generate_response, App1.user_turn, App1.trim_history,
          App1.required_secrets
  end.

Lemma App_script_once : keeps Inv Good App.script (fun _ => True).
Proof. repeat once_step. Qed.

Lemma App1_script_once : keeps Inv Good App1.script (fun _ => True).
Proof. repeat once_step. Qed.

End WriteOnce.

Lemma App1_script_session_keyed (sid : str) (c0 : list Document) :
  keeps (session_keyed sid c0) (fun _ => True) App1.script (fun _ => True).
Proof.
  apply (App1_script_once (session_keyed sid c0) (fun _ => True)
           (fun s => session_id s = Some sid) (fun i => i = sid)
           (fun d => doc_session_id d = sid)).
  - done.
  - done.
  - done.
  - intros w s [_ Hadded] Hs. by split.
  - intros w d [Hs (added & Hc & Hadded)] Hd. split; [done |].
    exists (added ++ [d]). simpl. rewrite Hc, <- app_assoc. split; [done |].
    apply Forall_app. split; [done |]. by constructor.
  - by intros w [Hs _].
  - done.
  - intros s i Hs Hnone. by rewrite Hs in Hnone.
  - intros s i Hs Hi. rewrite Hs in Hi. by injection Hi as <-.
  - by intros i r c t now ->.
Qed.

(** X11. In [app_1.py] the session identifier is written once: a session
    that has one keeps it through any sequence of runs, however each run
    ends, and every document those runs add to the collection carries it. *)
Theorem session_id_is_stable :
  forall (envs : list Env) (w : World) (sid : str),
    session_id (session_state w) = Some sid ->
    session_id (session_state (reruns App1.script envs w)) = Some sid
    /\ exists added,
         collection (reruns App1.script envs w) = collection w ++ added
         /\ Forall (fun d => doc_session_id d = sid) added.
Proof.
  intros envs w sid Hsid.
  apply (reruns_keep (session_keyed sid (collection w)) (fun _ => True));
    [apply App1_script_session_keyed | by apply Forall_forall |].
  split; [done |]. exists []. by rewrite app_nil_r.
Qed.

Lemma session_id_is_stable_witness :
  let answer := {| resp_content := lit "ok"; total_tokens := 3%Z |} in
  let w :=
    with_session fresh_world
      (with_session_id (session_state fresh_world) (Some (lit "a1"))) in
  let envs :=
    [sample_env (Some (lit "hi")) (fun _ => inr answer);
     sample_env (Some (lit "more")) (fun _ => inl Timeout)] in
  session_id (session_state (reruns App1.script envs w)) = Some (lit "a1").
Proof.
  intros answer w envs.
  by destruct (session_id_is_stable envs w (lit "a1") eq_refl) as [Hsid _].
Defined.

Lemma App_script_start_time (t0 : Z) :
  keeps (fun w => conversation_start_time (session_state w) = Some t0)
    (fun _ => True) App.script (fun _ => True).
Proof.
  apply (App_script_once
           (fun w => conversation_start_time (session_state w) = Some t0)
           (fun _ => True)
           (fun s => conversation_start_time s = Some t0));
    try done.
  intros s t Hs Hnone. by rewrite Hs in Hnone.
Qed.

Lemma App_session_init_run env w :
  App.session_init env w
  = (Returned tt,
     match conversation_start_time (session_state w) with
     | Some _ =>
         with_session w
           (with_messages (session_state w)
              (Some (default [] (messages (session_state w)))))
     | None =>
         with_session (with_clock_reads w (S (clock_reads w)))
           (with_start_time
              (with_messages (session_state w)
                 (Some (default [] (messages (session_state w)))))
              (Some (clock env (clock_reads w))))
     end).
Proof.
  destruct w as [[msgs start sid] key coll t n].
  destruct msgs as [l |]; destruct start as [t0 |]; reflexivity.
Qed.

(** X12. In [app.py] the conversation start time is written once:
    [session_init] reads the clock only when the session has no start time
    and then stores that reading, it creates an empty buffer only when there
    is none, and a start time that is set survives any sequence of runs. *)
Theorem conversation_start_time_is_stable :
  forall (env : Env) (envs : list Env) (w : World),
    (exists w',
       App.session_init env w = (Returned tt, w')
       /\ messages (session_state w')
          = Some (default [] (messages (session_state w)))
       /\ conversation_start_time (session_state w')
          = Some (default (clock env (clock_reads w))
                    (conversation_start_time (session_state w)))
       /\ clock_reads w'
          = match conversation_start_time (session_state w) with
            | Some _ => clock_reads w
            | None => S (clock_reads w)
            end)
    /\ (forall t0,
          conversation_start_time (session_state w) = Some t0 ->
          conversation_start_time (session_state (reruns App.script envs w))
          = Some t0).
Proof.
  intros env envs w. split.
  - eexists. split; [apply App_session_init_run |].
    destruct (conversation_start_time (session_state w)) eqn:Ht; simpl;
      by repeat split.
  - intros t0 Ht0.
    by apply (reruns_keep
                (fun w => conversation_start_time (session_state w) = Some t0)
                (fun _ => True));
      [apply App_script_start_time | apply Forall_forall |].
Qed.

Lemma conversation_start_time_is_stable_witness :
  let answer := {| resp_content := lit "ok"; total_tokens := 3%Z |} in
  let env := sample_env (Some (lit "hi")) (fun _ => inr answer) in
  let w := snd (App.script (sample_env None (fun _ => inr answer)) fresh_world) in
  conversation_start_time (session_state (reruns App.script [env; env] w))
  = Some 1000%Z.
Proof.
  intros answer env w.
  destruct (conversation_start_time_is_stable env [env; env] w) as [_ Hkeep].
  apply Hkeep. reflexivity.
Defined.

(** ** What one run can do to the outside *)

Lemma store_queries_app t1 t2 :
  store_queries (t1 ++ t2) = store_queries t1 ++ store_queries t2.
Proof. apply omap_app. Qed.

Lemma store_queries_cons e t :
  store_queries (e :: t)
  = match e with Find sid => [sid] | _ => [] end ++ store_queries t.
Proof. by destruct e. Qed.

Lemma store_queries_display l : store_queries (map display l) = [].
Proof. by apply omap_map_None. Qed.

Ltac effects_simpl :=
  world_simpl;
  repeat progress
    rewrite ?store_queries_app, ?store_queries_cons, ?store_queries_display;
  change (store_queries []) with (@nil str);
  trace_simpl;
  rewrite ?length_app; cbn [length app].

(** X13. What a run of [app.py] does to the outside is bounded: it raises
    at most one [st.error] and sends at most one provider request (there is
    no retry); a stopped run has raised exactly one [st.error] and sent no
    request; a request is only ever sent by a run that goes on to the end of
    the script. *)
Theorem App_run_effects :
  forall (env : Env) (w : World),
    let t := trace w in
    let t' := trace (snd (App.script env w)) in
    length (st_errors t) <= length (st_errors t')
    /\ length (st_errors t') <= S (length (st_errors t))
    /\ length (provider_requests t) <= length (provider_requests t')
    /\ length (provider_requests t') <= S (length (provider_requests t))
    /\ (fst (App.script env w) = Stopped ->
        length (st_errors t') = S (length (st_errors t))
        /\ provider_requests t' = provider_requests t)
    /\ (provider_requests t' <> provider_requests t ->
        fst (App.script env w) = Returned tt).
Proof.
  intros env w t t'. subst t t'.
  destruct (secrets env !! "OPENAI_API_KEY") as [key |] eqn:Hkey.
  2: { rewrite (App_startup_no_key env w Hkey). effects_simpl.
       repeat split; (lia || done). }
  destruct (chat_input_cases env)
    as [Hfalsy | [(text & Hin & Hlong) | (text & Hin & Hne & Hlen)]].
  - destruct (App_run_without_input env w key Hkey Hfalsy)
      as (w' & Hrun & _ & _ & Htrace).
    rewrite Hrun. cbn [fst snd]. rewrite Htrace. effects_simpl.
    repeat split; (lia || done).
  - destruct (App_turn_too_long env w key text Hkey Hin Hlong)
      as (w' & Hrun & _ & _ & Htrace).
    rewrite Hrun. cbn [fst snd]. rewrite Htrace. effects_simpl.
    repeat split; (lia || done).
  - destruct (provider env
                (App.completion_request
                   ({| role := "system"; content := App.SYSTEM_PROMPT |}
                    :: default [] (messages (session_state w)) ++
                       [{| role := "user"; content := text |}])))
      as [e | response] eqn:Hp.
    + destruct (App_turn_failure env w key text e Hkey Hin Hne Hlen Hp)
        as (w' & Hrun & _ & _ & Htrace).
      rewrite Hrun. cbn [fst snd]. rewrite Htrace. effects_simpl.
      repeat split; (lia || done).
    + destruct (App_turn_reply env w key text response Hkey Hin Hne Hlen Hp)
        as (w' & Hrun & _ & _ & Htrace).
      rewrite Hrun. cbn [fst snd]. rewrite Htrace.
      destruct (str_truthy (strip (resp_content response)));
        effects_simpl; repeat split; (lia || done).
Qed.

(** X14. What a run of [app_1.py] does to the outside is bounded: at most
    one [st.error], one provider request and two inserts; the collection is
    queried exactly when the run gets past start-up with no buffer in
    memory, once, for the session's identifier.  A stopped run has raised
    exactly one [st.error] and sent or inserted nothing; a run ended by an
    uncaught exception has raised no [st.error] at all. *)
Theorem App1_run_effects :
  forall (env : Env) (w : World),
    let t := trace w in
    let t' := trace (snd (App1.script env w)) in
    length (st_errors t) <= length (st_errors t')
    /\ length (st_errors t') <= S (length (st_errors t))
    /\ length (provider_requests t) <= length (provider_requests t')
    /\ length (provider_requests t') <= S (length (provider_requests t))
    /\ length (store_inserts t) <= length (store_inserts t')
    /\ length (store_inserts t') <= S (S (length (store_inserts t)))
    /\ store_queries t'
       = store_queries t ++
         match secrets env !! "OPENAI_API_KEY", secrets env !! "MONGODB_URI",
               mongo_startup env, messages (session_state w) with
         | Some _, Some _, None, None => [App1.current_session_id env w]
         | _, _, _, _ => []
         end
    /\ (fst (App1.script env w) = Stopped ->
        length (st_errors t') = S (length (st_errors t))
        /\ provider_requests t' = provider_requests t
        /\ store_inserts t' = store_inserts t)
    /\ (forall e,
          fst (App1.script env w) = Raised e ->
          st_errors t' = st_errors t
          /\ provider_requests t' = provider_requests t
          /\ store_inserts t' = store_inserts t).
Proof.
  intros env w t t'. subst t t'.
  destruct (secrets env !! "OPENAI_API_KEY") as [key |] eqn:Hkey.
  2: { rewrite (App1_startup_no_key env w Hkey). effects_simpl.
       cbv beta iota; rewrite ?app_nil_r; repeat split; (lia || done). }
  destruct (secrets env !! "MONGODB_URI") as [uri |] eqn:Huri.
  2: { rewrite (App1_startup_no_uri env w key Hkey Huri). effects_simpl.
       cbv beta iota; rewrite ?app_nil_r; repeat split; (lia || done). }
  destruct (mongo_startup env) as [e |] eqn:Hmongo.
  { destruct (decide (e = ConnectionFailure)) as [-> | He].
    - rewrite (App1_startup_connection_failure env w key uri Hkey Huri Hmongo).
      effects_simpl. cbv beta iota; rewrite ?app_nil_r; repeat split; (lia || done).
    - rewrite (App1_startup_escape env w key uri e Hkey Huri Hmongo He).
      effects_simpl. cbv beta iota; rewrite ?app_nil_r; repeat split; (lia || done). }
  destruct (chat_input_cases env)
    as [Hfalsy | [(text & Hin & Hlong) | (text & Hin & Hne & Hlen)]].
  - destruct (App1_run_without_input env w key uri Hkey Huri Hmongo Hfalsy)
      as (w' & Hrun & _ & _ & _ & Htrace).
    rewrite Hrun. cbn [fst snd]. rewrite Htrace.
    destruct (messages (session_state w)); effects_simpl; cbv beta iota; rewrite ?app_nil_r; repeat split; (lia || done).
  - destruct (App1_turn_too_long env w key uri text Hkey Huri Hmongo Hin Hlong)
      as (w' & Hrun & _ & _ & Htrace).
    rewrite Hrun. cbn [fst snd]. rewrite Htrace.
    destruct (messages (session_state w)); effects_simpl; cbv beta iota; rewrite ?app_nil_r; repeat split; (lia || done).
  - destruct (provider env
                (App1.completion_request
                   ({| role := "system"; content := App1.SYSTEM_PROMPT |}
                    :: App1.buffer_on_entry env w ++
                       [{| role := "user"; content := text |}])))
      as [e | response] eqn:Hp.
    + destruct (App1_turn_failure env w key uri text e Hkey Huri Hmongo Hin
                  Hne Hlen Hp) as (w' & Hrun & _ & _ & _ & Htrace).
      rewrite Hrun. cbn [fst snd]. rewrite Htrace.
      destruct (messages (session_state w)); effects_simpl;
        cbv beta iota; rewrite ?app_nil_r; repeat split; (lia || done).
    + destruct (App1_turn_reply env w key uri text response Hkey Huri Hmongo
                  Hin Hne Hlen Hp) as (w' & Hrun & _ & _ & _ & Htrace).
      rewrite Hrun. cbn [fst snd]. rewrite Htrace.
      destruct (str_truthy (strip (resp_content response)));
        destruct (messages (session_state w)); simpl (map InsertOne _);
        effects_simpl; cbv beta iota; rewrite ?app_nil_r;
        repeat split; (lia || done).
Qed.

(** ** A persisted turn is what rehydration loads last *)

Lemma sorted_latest_is_last (retrieved old : list Document) (d : Document) :
  retrieved ≡ₚ old ++ [d] ->
  StronglySorted created_le retrieved ->
  Forall (fun p => (doc_created_at p < doc_created_at d)%Z) old ->
  exists before,
    retrieved = before ++ [d] /\ before ≡ₚ old
    /\ StronglySorted created_le before.
Proof.
  intros Hperm Hsorted Hold.
  assert (Hin : d ∈ retrieved).
  { rewrite Hperm. apply elem_of_app. right. by apply list_elem_of_singleton. }
  destruct (list_elem_of_split _ _ Hin) as (before & after & ->).
  pose proof (sorted_after _ _ _ Hsorted) as Hafter.
  pose proof (others_of_permutation _ _ _ _ Hperm) as Hothers.
  destruct after as [| p after].
  - exists before. rewrite app_nil_r in Hothers. split; [done |].
    split; [done |]. by apply StronglySorted_app_1_l in Hsorted.
  - exfalso. rewrite Forall_forall in Hold, Hafter.
    assert (Hp : p ∈ old).
    { rewrite <- Hothers. apply elem_of_app. right. by left. }
    specialize (Hold p Hp). specialize (Hafter p ltac:(left)).
    unfold created_le in Hafter. lia.
Qed.

(** X15. A completed turn of [app_1.py] can be reloaded: when the two clock
    readings of the turn increase and are later than every stored document of
    the session, a later rehydration of that session (same identifier, no
    buffer in memory) loads a buffer that ends with the turn's user message
    and assistant reply, in that order, after the earlier history. *)
Theorem persisted_turn_is_reloaded_last :
  forall (env env2 : Env) (w : World) (key uri sid text : str)
         (response : Response),
    find_sort_contract env2 ->
    secrets env !! "OPENAI_API_KEY" = Some key ->
    secrets env !! "MONGODB_URI" = Some uri ->
    mongo_startup env = None ->
    chat_input env = Some text ->
    text <> [] ->
    length text <= 2000 ->
    session_id (session_state w) = Some sid ->
    let user_message := {| role := "user"; content := text |} in
    let assistant_message :=
      {| role := "assistant"; content := strip (resp_content response) |} in
    let stored := filter (fun d => doc_session_id d = sid) (collection w) in
    provider env
      (App1.completion_request
         ({| role := "system"; content := App1.SYSTEM_PROMPT |}
          :: App1.buffer_on_entry env w ++ [user_message]))
    = inr response ->
    strip (resp_content response) <> [] ->
    Forall (fun d => (doc_created_at d < clock env (clock_reads w))%Z) stored ->
    (clock env (clock_reads w) < clock env (S (clock_reads w)))%Z ->
    exists w' w2 earlier,
      App1.script env w = (Returned tt, w')
      /\ App1.session_management env2
           (with_session w' (with_messages (session_state w') None))
         = (Returned tt, w2)
      /\ earlier ≡ₚ stored
      /\ StronglySorted created_le earlier
      /\ messages (session_state w2)
         = Some (map (fun d => {| role := doc_role d; content := doc_content d |})
                     earlier
                 ++ [user_message; assistant_message]).
Proof.
  intros env env2 w key uri sid text response Hcontract Hkey Huri Hmongo Hin
    Hne Hlen Hsid user_message assistant_message stored Hp Hreply Hstored
    Hclock.
  destruct (App1_turn_reply env w key uri text response Hkey Huri Hmongo Hin
              Hne Hlen Hp) as (w' & Hrun & _ & Hsid' & Hcoll & _).
  assert (Htruthy : str_truthy (strip (resp_content response)) = true)
    by (by destruct (strip (resp_content response))).
  rewrite Htruthy in Hcoll.
  unfold App1.current_session_id in Hsid', Hcoll. rewrite Hsid in Hsid', Hcoll.
  simpl in Hsid', Hcoll.
  set (user_document :=
         {| doc_session_id := sid; doc_role := "user"; doc_content := text;
            doc_token_usage := None;
            doc_created_at := clock env (clock_reads w) |}) in *.
  set (assistant_document :=
         {| doc_session_id := sid; doc_role := "assistant";
            doc_content := strip (resp_content response);
            doc_token_usage := Some (total_tokens response);
            doc_created_at := clock env (S (clock_reads w)) |}) in *.
  destruct (Hcontract (collection w') sid) as [Hperm Hsorted].
  set (retrieved := find_sort env2 (collection w') sid) in *.
  assert (Hfilter :
    filter (fun d => doc_session_id d = sid) (collection w')
    = (stored ++ [user_document]) ++ [assistant_document]).
  { rewrite Hcoll, filter_app, <- app_assoc. f_equal.
    by rewrite !filter_cons_True by done. }
  rewrite Hfilter in Hperm.
  destruct (sorted_latest_is_last _ _ _ Hperm Hsorted)
    as (before & Hlast & Hperm1 & Hsorted1).
  { apply Forall_app. split.
    - eapply Forall_impl; [exact Hstored |]. simpl. intros d Hd. lia.
    - by repeat constructor. }
  destruct (sorted_latest_is_last _ _ _ Hperm1 Hsorted1 Hstored)
    as (earlier & Hbefore & Hperm2 & Hsorted2).
  eexists w', _, earlier. split; [done |].
  split; [by apply session_management_load |].
  split; [done |]. split; [done |].
  cbn [messages session_state with_session with_messages with_session_id
       with_trace collection].
  unfold App1.current_session_id.
  cbn [messages session_state with_session with_messages session_id
       collection].
  rewrite Hsid'. cbn [default].
  change (find_sort env2 (collection w') (id sid)) with retrieved.
  rewrite Hlast, Hbefore, <- app_assoc, map_app. reflexivity.
Qed.

Lemma persisted_turn_is_reloaded_last_witness :
  let answer := {| resp_content := lit " Hello! "; total_tokens := 12%Z |} in
  let env := sample_env (Some (lit "hi")) (fun _ => inr answer) in
  let w :=
    with_collection
      (with_session fresh_world
         (with_session_id (session_state fresh_world) (Some (lit "a1"))))
      (sample_history (lit "a1") 3) in
  exists w' w2 loaded,
    App1.script env w = (Returned tt, w')
    /\ App1.session_management env
         (with_session w' (with_messages (session_state w') None))
       = (Returned tt, w2)
    /\ messages (session_state w2) = Some loaded
    /\ drop 3 loaded
       = [{| role := "user"; content := lit "hi" |};
          {| role := "assistant"; content := lit "Hello!" |}].
Proof.
  intros answer env w.
  destruct (persisted_turn_is_reloaded_last env env w (lit "sk-test")
              (lit "mongodb://localhost:27017") (lit "a1") (lit "hi") answer)
    as (w' & w2 & earlier & Hrun & Hload & Hperm & _ & Hbuf);
    [by apply stable_find_sort_contract | reflexivity | reflexivity
    | reflexivity | reflexivity | discriminate | simpl; lia | reflexivity
    | reflexivity | by vm_compute | by repeat constructor | reflexivity |].
  eexists w', w2, _. split; [exact Hrun |]. split; [exact Hload |].
  split; [exact Hbuf |].
  apply Permutation_length in Hperm.
  rewrite drop_app_length' by (rewrite length_map, Hperm; reflexivity).
  by vm_compute.
Defined.
